(** * Session surveillance microservice: session state and security analysis

    A shallow embedding of [server/python_microservice/session_monitor.py]
    (class [SessionMonitor]) and the properties of its event pipeline.

    Conventions of the embedding:
    - a [datetime] is the number of microseconds since the epoch, a
      [timedelta] a number of microseconds, both in [Z] (Python's own
      resolution; both are exact integers there too);
    - a Python [float] that is stored or compared is the exact value of
      the double, a rational in [Q]: comparisons of doubles are exact, and
      a float literal such as [0.8] stands for the double nearest to it;
      the one place where the code computes with floats, the score
      [1 - (score + 0.5)], is computed in binary64 ([PrimFloat]) and
      then read as its exact value;
      [timedelta.total_seconds()] is the exact quotient by 10^6 (the float
      division is correctly rounded and the thresholds 10 and 300 are
      representable, so the comparisons agree);
    - a Python [int] is in [Z];
    - [self.active_sessions], a [dict] from session id to a [dict] with a
      fixed set of keys, is a [gmap string Session];
    - a raised exception is the [Raise] outcome of a small state and
      exception monad; what the code hands to its collaborators (alerts to
      [store_alert], messages to [logger.error]) is appended to the state;
    - the clock is an input: each call of [datetime.utcnow()] and of
      [time.time()] has its own reading, given with the event. *)

From Stdlib Require Import ZArith QArith Lia Lqa.
From Stdlib Require Import Floats.PrimFloat Floats.FloatOps Floats.SpecFloat.
From stdpp Require Import gmap strings pretty list fin_maps.

Set Warnings "-inexact-float".

Local Open Scope string_scope.
Local Open Scope list_scope.
Local Open Scope Z_scope.

(** ** Floats *)

(** A double as its comparisons see it: the exact value of a finite
    double (both zeros are 0), an infinity, or NaN. *)
Inductive PyFloat :=
  | Finite (value : Q)
  | Infinite (negative : bool)
  | NaN.

Definition float_view (x : float) : PyFloat :=
  match Prim2SF x with
  | S754_zero _ => Finite 0
  | S754_infinity negative => Infinite negative
  | S754_nan => NaN
  | S754_finite negative m e =>
      let magnitude :=
        if (0 <=? e)%Z then inject_Z (Z.pos m * 2 ^ e)
        else (Z.pos m # Z.to_pos (2 ^ (- e)))%Q in
      Finite (Qred (if negative then - magnitude else magnitude))
  end.

(** The exact value of a float literal of the source, all of which are
    finite. *)
Definition float_Q (x : float) : Q :=
  match float_view x with
  | Finite value => value
  | Infinite _ | NaN => 0
  end.

(** ** Thresholds (module constants) *)

Definition TAB_SWITCH_THRESHOLD : Z := 3.
Definition INACTIVITY_THRESHOLD : Q := 30 # 1.
Definition HEARTBEAT_TIMEOUT : Q := 10 # 1.
Definition SUSPICIOUS_SCORE_THRESHOLD : Q := float_Q 0.7.

(** The literal [0.8] of the risk floor. *)
Definition RISK_FLOOR : Q := float_Q 0.8.

(** ** Enumerations *)

Inductive EventType :=
  | TAB_SWITCH | INACTIVITY | HEARTBEAT | SESSION_START | SESSION_END
  | SCREEN_LOCK | DEVICE_CHANGE | COPY_PASTE | RIGHT_CLICK | KEYBOARD_SHORTCUT.

Inductive SecurityLevel := LOW | MEDIUM | HIGH | CRITICAL.

#[global] Instance EventType_eq_dec : EqDecision EventType.
Proof. solve_decision. Defined.

#[global] Instance SecurityLevel_eq_dec : EqDecision SecurityLevel.
Proof. solve_decision. Defined.

(** The [.value] of each member. *)
Definition EventType_value (t : EventType) : string :=
  match t with
  | TAB_SWITCH => "tab_switch"
  | INACTIVITY => "inactivity"
  | HEARTBEAT => "heartbeat"
  | SESSION_START => "session_start"
  | SESSION_END => "session_end"
  | SCREEN_LOCK => "screen_lock"
  | DEVICE_CHANGE => "device_change"
  | COPY_PASTE => "copy_paste"
  | RIGHT_CLICK => "right_click"
  | KEYBOARD_SHORTCUT => "keyboard_shortcut"
  end.

(** The members in definition order. *)
Definition EventType_members : list EventType :=
  [TAB_SWITCH; INACTIVITY; HEARTBEAT; SESSION_START; SESSION_END;
   SCREEN_LOCK; DEVICE_CHANGE; COPY_PASTE; RIGHT_CLICK; KEYBOARD_SHORTCUT].

(** ** Python values and exceptions *)

(** A scalar value of a [Dict[str, Any]] metadata entry, as far as the
    rules tell values apart: a number (a JSON boolean counts as the
    number 0 or 1, as it does in Python), or a value that has no order
    against a number (a string, or [None]). *)
Inductive PyVal :=
  | PyNum (q : Q)
  | PyStr (s : string)
  | PyNone.

Inductive PyExc :=
  | KeyError (key : string)
  | ValueError (value : string)
  | TypeError
  | AttributeError
  | Exception (msg : string).

Inductive result (A : Type) :=
  | Ok (a : A)
  | Raise (e : PyExc).
Arguments Ok {A} a.
Arguments Raise {A} e.

(** [a < b] on floats. *)
Definition Qlt_bool (a b : Q) : bool := negb (Qle_bool b a).

(** [max(a, b)]: the first argument unless the second is strictly
    larger. *)
Definition py_max (a b : Q) : Q := if Qlt_bool a b then b else a.

(** [a < b] on doubles that may be infinite or NaN: a comparison with
    NaN is false. *)
Definition float_lt (a b : PyFloat) : bool :=
  match a, b with
  | NaN, _ | _, NaN => false
  | Finite p, Finite q => Qlt_bool p q
  | Finite _, Infinite negative => negb negative
  | Infinite negative, Finite _ => negative
  | Infinite negative, Infinite negative' => negative && negb negative'
  end.

(** [max(a, b)] and [min(a, b)] on such doubles. *)
Definition float_max (a b : PyFloat) : PyFloat := if float_lt a b then b else a.
Definition float_min (a b : PyFloat) : PyFloat := if float_lt b a then b else a.

(** [v > bound] for a metadata value [v]: [TypeError] when [v] is not a
    number. *)
Definition py_gt (v : PyVal) (bound : Q) : result bool :=
  match v with
  | PyNum q => Ok (Qlt_bool bound q)
  | PyStr _ | PyNone => Raise TypeError
  end.

(** [EventType(value)]: the member with that value, [ValueError]
    otherwise. *)
Definition EventType_call (value : string) : result EventType :=
  match List.find (fun t => String.eqb (EventType_value t) value) EventType_members with
  | Some t => Ok t
  | None => Raise (ValueError value)
  end.

(** ** Records *)

(** [metadata.get(key, 0)] *)
Definition metadata_get (metadata : gmap string PyVal) (key : string) : PyVal :=
  default (PyNum 0) (metadata !! key).

(** The JSON object of a request, the body of a REST request or the
    decoded WebSocket message: a dictionary in which a key may be
    missing; the values that are present have the declared types. *)
Module EventData.
Record t := mk {
  user_id : option string;
  session_id : option string;
  event_type : option string;
  metadata : option (gmap string PyVal);
  device_fingerprint : option string;
  ip_address : option string;
  user_agent : option string
}.
End EventData.

Module SessionEvent.
Record t := mk {
  user_id : string;
  session_id : string;
  event_type : EventType;
  timestamp : Z;
  metadata : gmap string PyVal;
  device_fingerprint : option string;
  ip_address : option string;
  user_agent : option string
}.
End SessionEvent.

(** The text of an alert, kept as the f-string's template and the values
    it interpolates. *)
Inductive Description :=
  | ExcessiveTabSwitching (tab_switches : Z)
  | UserInactive (duration : option PyVal)
  | HeartbeatTimeout (total_seconds : Q)
  | MLFlagged (risk_score : Q).

Module SecurityAlert.
Record t := mk {
  alert_id : string;
  user_id : string;
  session_id : string;
  security_level : SecurityLevel;
  event_type : EventType;
  description : Description;
  timestamp : Z;
  metadata : gmap string PyVal;
  is_resolved : bool
}.
End SecurityAlert.

(** One entry of [self.active_sessions]. *)
Record Session := mkSession {
  user_id : string;
  start_time : Z;
  last_heartbeat : Z;
  status : string;
  risk_score : Q;
  event_count : Z;
  tab_switches : Z;
  last_tab_switch : option Z
}.

(** Item assignment [session[key] = value], one setter per key written
    by the code. *)
Definition set_last_heartbeat (v : Z) (s : Session) : Session :=
  mkSession (user_id s) (start_time s) v (status s) (risk_score s)
            (event_count s) (tab_switches s) (last_tab_switch s).
Definition set_status (v : string) (s : Session) : Session :=
  mkSession (user_id s) (start_time s) (last_heartbeat s) v (risk_score s)
            (event_count s) (tab_switches s) (last_tab_switch s).
Definition set_risk_score (v : Q) (s : Session) : Session :=
  mkSession (user_id s) (start_time s) (last_heartbeat s) (status s) v
            (event_count s) (tab_switches s) (last_tab_switch s).
Definition set_event_count (v : Z) (s : Session) : Session :=
  mkSession (user_id s) (start_time s) (last_heartbeat s) (status s) (risk_score s)
            v (tab_switches s) (last_tab_switch s).
Definition set_tab_switches (v : Z) (s : Session) : Session :=
  mkSession (user_id s) (start_time s) (last_heartbeat s) (status s) (risk_score s)
            (event_count s) v (last_tab_switch s).
Definition set_last_tab_switch (v : option Z) (s : Session) : Session :=
  mkSession (user_id s) (start_time s) (last_heartbeat s) (status s) (risk_score s)
            (event_count s) (tab_switches s) v.

(** ** The monitor and its clocks *)

Inductive LogRecord :=
  | ErrorProcessingEvent (e : PyExc)
  | ErrorCalculatingRiskScore (e : PyExc).

(** The object that [_initialize_ml_model] returns when it is not
    [None]: its truth value, which [if self.ml_model:] asks for and which
    may raise (the [IsolationForest] that the code builds and never fits
    has a [__len__] that raises [AttributeError]), and
    [decision_function(features)[0]], which may raise as well. *)
Record Model := mkModel {
  model_bool : result bool;
  decision_function : list PyVal -> result float
}.

(** [self]. [ml_model] is [None] or a model; [security_alerts] lists
    the alerts handed to [store_alert], oldest first, and [error_log] the
    [logger.error] records of
    [process_event] and [_calculate_ml_risk_score], oldest first; a
    failure of the database or of the publisher is caught and logged
    inside [store_event], [store_alert] and [publish_event] and changes
    nothing below. *)
Record SessionMonitor := mkMonitor {
  ml_model : option Model;
  active_sessions : gmap string Session;
  security_alerts : list SecurityAlert.t;
  error_log : list LogRecord
}.

(** The clock readings taken while one event is processed:
    [datetime.utcnow()] in [process_event], [datetime.utcnow()] in
    [analyze_security], and [int(time.time())] in the call of
    [_create_alert] that follows [n] earlier calls for the same event. *)
Record Clock := mkClock {
  utcnow_event : Z;
  utcnow_analysis : Z;
  time_time : nat -> Z
}.

(** ** State and exception monad *)

Definition M (A : Type) : Type := SessionMonitor -> result A * SessionMonitor.

#[global] Instance M_ret : MRet M := fun A a self => (Ok a, self).
#[global] Instance M_bind : MBind M := fun A B f m self =>
  match m self with
  | (Ok a, self') => f a self'
  | (Raise e, self') => (Raise e, self')
  end.

Definition gets {A} (f : SessionMonitor -> A) : M A :=
  fun self => (Ok (f self), self).

Definition lift {A} (r : result A) : M A := fun self => (r, self).

(** [try: body except Exception as e: handler(e)] *)
Definition try_except {A} (body : M A) (handler : PyExc -> M A) : M A :=
  fun self =>
    match body self with
    | (Ok a, self') => (Ok a, self')
    | (Raise e, self') => handler e self'
    end.

(** [logger.error(...)] *)
Definition log_error (r : LogRecord) : M unit :=
  fun self =>
    (Ok tt, mkMonitor (ml_model self) (active_sessions self)
                      (security_alerts self) (error_log self ++ [r])).

(** [self.active_sessions[session_id] = session] *)
Definition assign_session (session_id : string) (session : Session) : M unit :=
  fun self =>
    (Ok tt, mkMonitor (ml_model self) (<[session_id := session]> (active_sessions self))
                      (security_alerts self) (error_log self)).

(** [if session_id in self.active_sessions:] followed by item
    assignments on [self.active_sessions[session_id]]. *)
Definition if_in_active_sessions (session_id : string) (f : Session -> Session) : M unit :=
  fun self =>
    match active_sessions self !! session_id with
    | Some session => assign_session session_id (f session) self
    | None => (Ok tt, self)
    end.

(** [event_data[key]] *)
Definition getitem {A} (key : string) (field : option A) : M A :=
  match field with
  | Some v => mret v
  | None => lift (Raise (KeyError key))
  end.

(** ** [store_alert] *)

Definition store_alert (alert : SecurityAlert.t) : M unit :=
  fun self =>
    (Ok tt, mkMonitor (ml_model self) (active_sessions self)
                      (security_alerts self ++ [alert]) (error_log self)).

Fixpoint store_alerts (alerts : list SecurityAlert.t) : M unit :=
  match alerts with
  | [] => mret tt
  | alert :: rest => store_alert alert ;; store_alerts rest
  end.

(** ** [update_session_state] *)

Definition update_session_state (event : SessionEvent.t) : M unit :=
  let session_id := SessionEvent.session_id event in
  match SessionEvent.event_type event with
  | SESSION_START =>
      assign_session session_id
        {| user_id := SessionEvent.user_id event;
           start_time := SessionEvent.timestamp event;
           last_heartbeat := SessionEvent.timestamp event;
           status := "active";
           risk_score := 0;
           event_count := 0;
           tab_switches := 0;
           last_tab_switch := None |}
  | HEARTBEAT =>
      if_in_active_sessions session_id
        (set_last_heartbeat (SessionEvent.timestamp event))
  | SESSION_END =>
      if_in_active_sessions session_id (set_status "ended")
  | TAB_SWITCH =>
      if_in_active_sessions session_id
        (fun session =>
           set_last_tab_switch (Some (SessionEvent.timestamp event))
             (set_tab_switches (tab_switches session + 1) session))
  | _ => mret tt
  end ;;
  (* Update event count *)
  if_in_active_sessions session_id
    (fun session => set_event_count (event_count session + 1) session).

(** ** [_create_alert] *)

(** [n] is the number of alerts created earlier for the same event; it
    selects the reading of [time.time()]. *)
Definition _create_alert (clk : Clock) (n : nat) (event : SessionEvent.t)
    (level : SecurityLevel) (description : Description) : SecurityAlert.t :=
  {| SecurityAlert.alert_id :=
       "alert_" +:+ pretty (time_time clk n) +:+ "_" +:+ SessionEvent.session_id event;
     SecurityAlert.user_id := SessionEvent.user_id event;
     SecurityAlert.session_id := SessionEvent.session_id event;
     SecurityAlert.security_level := level;
     SecurityAlert.event_type := SessionEvent.event_type event;
     SecurityAlert.description := description;
     SecurityAlert.timestamp := SessionEvent.timestamp event;
     SecurityAlert.metadata := SessionEvent.metadata event;
     SecurityAlert.is_resolved := false |}.

(** ** [_calculate_ml_risk_score] *)

Definition features (event : SessionEvent.t) (session : Session) : list PyVal :=
  [ PyNum (inject_Z (event_count session));
    PyNum (inject_Z (tab_switches session));
    PyNum (risk_score session);
    metadata_get (SessionEvent.metadata event) "duration";
    metadata_get (SessionEvent.metadata event) "click_count";
    metadata_get (SessionEvent.metadata event) "keypress_count" ].

(** [bool(self.ml_model)], the test of [if self.ml_model:]: [None] is
    false, a model answers for itself. *)
Definition ml_model_bool : M bool :=
  model ← gets ml_model;
  match model with
  | Some model => lift (model_bool model)
  | None => mret false
  end.

(** [self.ml_model.decision_function(features)[0]] *)
Definition ml_model_decision_function (features : list PyVal) : M float :=
  model ← gets ml_model;
  match model with
  | Some model => lift (decision_function model features)
  | None => lift (Raise AttributeError)
  end.

(** [max(0.0, min(1.0, risk_score))]: a double between 0 and 1, as its
    exact value. *)
Definition clamp (risk_score : float) : Q :=
  match float_max (Finite 0) (float_min (Finite 1) (float_view risk_score)) with
  | Finite value => value
  | Infinite _ | NaN => 0
  end.

Definition _calculate_ml_risk_score (event : SessionEvent.t) (session : Session) : M Q :=
  try_except
    (truth ← ml_model_bool;
     if truth : bool then
       score ← ml_model_decision_function (features event session);
       let risk_score := (1 - (score + 0.5))%float in
       mret (clamp risk_score)
     else mret 0%Q)
    (fun e => log_error (ErrorCalculatingRiskScore e) ;; mret 0%Q).

(** ** [analyze_security] *)

(** [timedelta(minutes=1)] *)
Definition time_window : Z := 60000000.

(** [timedelta.total_seconds()] *)
Definition total_seconds (td : Z) : Q := td # 1000000.

(** Check for excessive tab switches. *)
Definition check_tab_switches (clk : Clock) (event : SessionEvent.t) (session : Session)
    (alerts : list SecurityAlert.t) : list SecurityAlert.t :=
  if decide (SessionEvent.event_type event = TAB_SWITCH) then
    match last_tab_switch session with
    | Some last =>
        let time_diff := SessionEvent.timestamp event - last in
        if (time_diff <? time_window) && (TAB_SWITCH_THRESHOLD <? tab_switches session) then
          alerts ++ [_create_alert clk (length alerts) event HIGH
                       (ExcessiveTabSwitching (tab_switches session))]
        else alerts
    | None => alerts
    end
  else alerts.

(** Check for inactivity. The comparison raises when the duration is not
    a number. *)
Definition check_inactivity (clk : Clock) (event : SessionEvent.t)
    (alerts : list SecurityAlert.t) : result (list SecurityAlert.t) :=
  if decide (SessionEvent.event_type event = INACTIVITY) then
    match py_gt (metadata_get (SessionEvent.metadata event) "duration")
                INACTIVITY_THRESHOLD with
    | Ok true =>
        Ok (alerts ++ [_create_alert clk (length alerts) event MEDIUM
                         (UserInactive (SessionEvent.metadata event !! "duration"))])
    | Ok false => Ok alerts
    | Raise e => Raise e
    end
  else Ok alerts.

(** Check for heartbeat timeout. A [datetime] is always true, so the
    guard [if session["last_heartbeat"]] always passes. *)
Definition check_heartbeat (clk : Clock) (event : SessionEvent.t) (session : Session)
    (alerts : list SecurityAlert.t) : list SecurityAlert.t :=
  let time_since_heartbeat := utcnow_analysis clk - last_heartbeat session in
  if Qlt_bool HEARTBEAT_TIMEOUT (total_seconds time_since_heartbeat) then
    alerts ++ [_create_alert clk (length alerts) event CRITICAL
                 (HeartbeatTimeout (total_seconds time_since_heartbeat))]
  else alerts.

(** ML-based anomaly detection. The truth test of the model is outside
    any [try] and may raise; the risk computation has its own handler. *)
Definition check_ml (clk : Clock) (event : SessionEvent.t) (session : Session)
    (alerts : list SecurityAlert.t) : M (list SecurityAlert.t) :=
  truth ← ml_model_bool;
  if truth : bool then
    risk ← _calculate_ml_risk_score event session;
    if_in_active_sessions (SessionEvent.session_id event) (set_risk_score risk) ;;
    if Qlt_bool SUSPICIOUS_SCORE_THRESHOLD risk then
      mret (alerts ++ [_create_alert clk (length alerts) event HIGH (MLFlagged risk)])
    else mret alerts
  else mret alerts.

(** Update session risk score. *)
Definition update_risk_score (event : SessionEvent.t) (alerts : list SecurityAlert.t) : M unit :=
  match alerts with
  | [] => mret tt
  | _ :: _ =>
      if_in_active_sessions (SessionEvent.session_id event)
        (fun session => set_risk_score (py_max (risk_score session) RISK_FLOOR) session)
  end.

Definition analyze_security (clk : Clock) (event : SessionEvent.t) : M unit :=
  session ← gets (fun self => active_sessions self !! SessionEvent.session_id event);
  match session with
  | None => mret tt
  | Some session =>
      let alerts := check_tab_switches clk event session [] in
      alerts ← lift (check_inactivity clk event alerts);
      let alerts := check_heartbeat clk event session alerts in
      alerts ← check_ml clk event session alerts;
      store_alerts alerts ;;
      update_risk_score event alerts
  end.

(** ** [process_event] *)

(** Create session event: the call [SessionEvent(...)], whose arguments
    are evaluated in order. *)
Definition create_event (clk : Clock) (event_data : EventData.t) : M SessionEvent.t :=
  user_id ← getitem "user_id" (EventData.user_id event_data);
  session_id ← getitem "session_id" (EventData.session_id event_data);
  event_type ← getitem "event_type" (EventData.event_type event_data);
  event_type ← lift (EventType_call event_type);
  mret {| SessionEvent.user_id := user_id;
          SessionEvent.session_id := session_id;
          SessionEvent.event_type := event_type;
          SessionEvent.timestamp := utcnow_event clk;
          SessionEvent.metadata := default ∅ (EventData.metadata event_data);
          SessionEvent.device_fingerprint := EventData.device_fingerprint event_data;
          SessionEvent.ip_address := EventData.ip_address event_data;
          SessionEvent.user_agent := EventData.user_agent event_data |}.

Definition process_event (clk : Clock) (event_data : EventData.t) : M unit :=
  try_except
    (event ← create_event clk event_data;
     (* store_event *)
     update_session_state event ;;
     analyze_security clk event
     (* publish_event *))
    (fun e => log_error (ErrorProcessingEvent e)).

(** The REST route [POST /api/events]. Its parameter is declared as the
    pydantic model [EventData], so the framework validates the request
    body before the route runs: a body that lacks one of the required
    fields [user_id], [session_id], [event_type] is answered with status
    422 and the list of the missing fields, and the route is not entered.
    Otherwise the route passes [event.dict()], in which every field is
    present and [metadata] defaults to an empty dictionary. *)
Inductive Response :=
  | StatusSuccess
  | HTTPException (status_code : Z) (detail : PyExc)
  | RequestValidationError (missing : list string).

Definition missing_fields (body : EventData.t) : list string :=
  (if EventData.user_id body is Some _ then [] else ["user_id"])
  ++ (if EventData.session_id body is Some _ then [] else ["session_id"])
  ++ (if EventData.event_type body is Some _ then [] else ["event_type"]).

(** [event.dict()] *)
Definition EventData_dict (body : EventData.t) : EventData.t :=
  EventData.mk (EventData.user_id body) (EventData.session_id body)
               (EventData.event_type body)
               (Some (default ∅ (EventData.metadata body)))
               (EventData.device_fingerprint body) (EventData.ip_address body)
               (EventData.user_agent body).

Definition receive_event (clk : Clock) (body : EventData.t)
    (self : SessionMonitor) : Response * SessionMonitor :=
  match missing_fields body with
  | [] =>
      match process_event clk (EventData_dict body) self with
      | (Ok _, self') => (StatusSuccess, self')
      | (Raise e, self') => (HTTPException 500 e, self')
      end
  | missing => (RequestValidationError missing, self)
  end.

(** A run of the pipeline over a sequence of events, each with its clock
    readings. *)
Fixpoint process_events (inputs : list (Clock * EventData.t)) (self : SessionMonitor) : SessionMonitor :=
  match inputs with
  | [] => self
  | (clk, event_data) :: rest => process_events rest (process_event clk event_data self).2
  end.

(** ** [cleanup_expired_sessions] *)

Definition is_expired (current_time : Z) (session_data : Session) : bool :=
  if String.eqb (status session_data) "ended" then true
  else Qlt_bool (300 # 1) (total_seconds (current_time - last_heartbeat session_data)).

Definition cleanup_expired_sessions (current_time : Z) (self : SessionMonitor) : SessionMonitor :=
  let expired_sessions :=
    (filter (fun item => is_expired current_time item.2 = true)
            (map_to_list (active_sessions self))).*1 in
  mkMonitor (ml_model self)
            (foldl (fun sessions session_id => delete session_id sessions)
                   (active_sessions self) expired_sessions)
            (security_alerts self) (error_log self).

(** ** [get_session_status] *)

(** The answer of a route: the returned value, or the [HTTPException]
    it raises. *)
Inductive HTTPResult (A : Type) :=
  | Returns (a : A)
  | RaisesHTTPException (status_code : Z) (detail : string).
Arguments Returns {A} a.
Arguments RaisesHTTPException {A} status_code detail.

Module SessionStatus.
Record t := mk {
  session_id : string;
  status : string;
  last_heartbeat : Z;
  alerts : list SecurityAlert.t;
  risk_score : Q
}.
End SessionStatus.

(** The route [GET /api/sessions/{session_id}/status]. [alerts] is what
    [get_session_alerts] returns for the session, a query of the
    database; every entry of the table has all its keys, so it is true
    and [session.get] finds the key. *)
Definition get_session_status (session_id : string) (alerts : list SecurityAlert.t)
    (self : SessionMonitor) : HTTPResult SessionStatus.t :=
  match active_sessions self !! session_id with
  | None => RaisesHTTPException 404 "Session not found"
  | Some session =>
      Returns {| SessionStatus.session_id := session_id;
                 SessionStatus.status := status session;
                 SessionStatus.last_heartbeat := last_heartbeat session;
                 SessionStatus.alerts := alerts;
                 SessionStatus.risk_score := risk_score session |}
  end.

(** ** Notions used in the statements *)

(** The monitor after [__init__]. *)
Definition new_monitor (model : option Model) : SessionMonitor :=
  mkMonitor model ∅ [] [].

(** The alerts that processing one event hands to [store_alert]. *)
Definition alerts_of (clk : Clock) (event_data : EventData.t) (self : SessionMonitor)
    : list SecurityAlert.t :=
  drop (length (security_alerts self))
       (security_alerts (process_event clk event_data self).2).

(** The alerts of critical severity among them; only the heartbeat rule
    creates such alerts. *)
Definition is_critical (alert : SecurityAlert.t) : Prop :=
  SecurityAlert.security_level alert = CRITICAL.

#[global] Instance is_critical_dec (alert : SecurityAlert.t) : Decision (is_critical alert).
Proof. unfold is_critical. apply _. Defined.

Definition critical_alerts (clk : Clock) (event_data : EventData.t) (self : SessionMonitor)
    : list SecurityAlert.t :=
  filter is_critical (alerts_of clk event_data self).

(** The state a finished analysis step leaves: [self] with the risk
    score of one session replaced and records appended to the log. *)
Definition with_risk (session_id : string) (session : Session) (risk : Q)
    (records : list LogRecord) (self : SessionMonitor) : SessionMonitor :=
  mkMonitor (ml_model self)
            (<[session_id := set_risk_score risk session]> (active_sessions self))
            (security_alerts self) (error_log self ++ records).

(** What [self.ml_model.decision_function(features)[0]] gives. *)
Definition model_score (model : option Model) (features : list PyVal) : result float :=
  match model with
  | Some model => decision_function model features
  | None => Raise AttributeError
  end.

(** The truth value that [if self.ml_model:] finds. *)
Definition model_truth (model : option Model) : result bool :=
  match model with
  | Some model => model_bool model
  | None => Ok false
  end.

(** The alerts after the scoring rule, given the risk score it computed
    ([None] when no model is configured). *)
Definition scored_alerts (clk : Clock) (scored : option Q) (event : SessionEvent.t)
    (alerts : list SecurityAlert.t) : list SecurityAlert.t :=
  match scored with
  | Some risk =>
      if Qlt_bool SUSPICIOUS_SCORE_THRESHOLD risk then
        alerts ++ [_create_alert clk (length alerts) event HIGH (MLFlagged risk)]
      else alerts
  | None => alerts
  end.

(** [self] with records appended to the log. *)
Definition logged (records : list LogRecord) (self : SessionMonitor) : SessionMonitor :=
  mkMonitor (ml_model self) (active_sessions self) (security_alerts self)
            (error_log self ++ records).

(** The risk score after the risk floor. *)
Definition final_risk (alerts : list SecurityAlert.t) (risk : Q) : Q :=
  match alerts with
  | [] => risk
  | _ :: _ => py_max risk RISK_FLOOR
  end.

(** ** Concrete requests, clocks, models and runs *)

(** A request in which the three required keys are present. *)
Definition event_of (user_id session_id event_type : string)
    (metadata : gmap string PyVal) : EventData.t :=
  EventData.mk (Some user_id) (Some session_id) (Some event_type) (Some metadata)
               None None None.

(** A [session_start] request with empty identifiers. *)
Definition empty_ids_start : EventData.t := event_of "" "" "session_start" ∅.

(** All clock readings of one event taken in the same second. *)
Definition clock_at (seconds : Z) : Clock :=
  mkClock (seconds * 1000000) (seconds * 1000000) (fun _ => seconds).

(** Clock readings of an event stamped at second 2 and analysed at second
    13, as when the awaited [store_event] in between takes 11 seconds. *)
Definition late_clock : Clock :=
  mkClock 2000000 13000000 (fun _ => 13).

(** The [IsolationForest] that [_initialize_ml_model] builds when no
    model file exists and that nothing fits: its truth value is its
    [__len__], which raises [AttributeError] for want of [estimators_];
    its [decision_function] raises as well. *)
Definition unfitted_forest : Model :=
  mkModel (Raise AttributeError) (fun _ => Raise (Exception "NotFittedError")).

(** A model that is true and whose [decision_function] raises, as a
    loaded estimator without [__len__] that was never fitted does. *)
Definition raising_model : Model :=
  mkModel (Ok true) (fun _ => Raise (Exception "NotFittedError")).

(** A model that gives every sample the margin [-0.5], the most
    anomalous one of the normalisation. *)
Definition outlier_model : Model :=
  mkModel (Ok true) (fun _ => Ok (-0.5)%float).


(** A model that gives every sample the margin [-0.2]. *)
Definition borderline_model : Model :=
  mkModel (Ok true) (fun _ => Ok (-0.2)%float).

(** The monitor, without a model, after the start of the session ["s"]
    of user ["u"] at second 0. *)
Definition started_monitor : SessionMonitor :=
  process_events [(clock_at 0, event_of "u" "s" "session_start" ∅)] (new_monitor None).

(** The monitor of a deployment without model file, which holds the
    forest that was never fitted, after the start of the session ["s"] of
    user ["u"] at second 0. *)
Definition forest_monitor : SessionMonitor :=
  process_events [(clock_at 0, event_of "u" "s" "session_start" ∅)]
                 (new_monitor (Some unfitted_forest)).

(** The monitor [started_monitor] after the session was ended at second
    1. *)
Definition ended_monitor : SessionMonitor :=
  process_events [(clock_at 1, event_of "u" "s" "session_end" ∅)] started_monitor.

(** The monitor [started_monitor] after tab switches at seconds 0, 5 and
    10 and a heartbeat at second 95. *)
Definition three_switches_monitor : SessionMonitor :=
  process_events
    [ (clock_at 0, event_of "u" "s" "tab_switch" ∅);
      (clock_at 5, event_of "u" "s" "tab_switch" ∅);
      (clock_at 10, event_of "u" "s" "tab_switch" ∅);
      (clock_at 95, event_of "u" "s" "heartbeat" ∅) ]
    started_monitor.

(** A run that leaves a session with a risk score of 0.8: a session start
    at second 0, a heartbeat at second 1 and, in the same second, an
    inactivity report of 31 seconds, which fires an alert. *)
Definition flagged_history : list (Clock * EventData.t) :=
  [ (clock_at 0, event_of "u" "s" "session_start" ∅);
    (clock_at 1, event_of "u" "s" "heartbeat" ∅);
    (clock_at 1, event_of "u" "s" "inactivity" {["duration" := PyNum (31 # 1)]}) ].

(** The monitor after that run when its model raises, and the session it
    then holds under the id ["s"]. *)
Definition flagged_session_monitor : SessionMonitor :=
  process_events flagged_history (new_monitor (Some raising_model)).

Definition flagged_session : Session :=
  mkSession "u" 0 1000000 "active" RISK_FLOOR 3 0 None.

(** A heartbeat event of that session, stamped at second 2. *)
Definition heartbeat_event : SessionEvent.t :=
  SessionEvent.mk "u" "s" HEARTBEAT 2000000 ∅ None None None.

(** The monitor whose model calls every sample an outlier, after the
    start of the session ["s"] of user ["u"] at second 0, and the session
    it then holds under that id: the start was flagged, with the score
    1. *)
Definition outlier_monitor : SessionMonitor :=
  process_events [(clock_at 0, event_of "u" "s" "session_start" ∅)]
                 (new_monitor (Some outlier_model)).

Definition outlier_session : Session :=
  mkSession "u" 0 0 "active" 1 1 0 None.

(** ** Notions used in the statements about runs and sweeps *)

(** The alerts of a given severity among those of one event. *)
Definition alerts_at (level : SecurityLevel) (clk : Clock) (event_data : EventData.t)
    (self : SessionMonitor) : list SecurityAlert.t :=
  filter (fun alert => SecurityAlert.security_level alert = level)
         (alerts_of clk event_data self).

(** What every entry of the session table satisfies once it was created
    by the pipeline: the risk score is between 0 and 1, the status is one
    of the two the code writes, and the counters agree with each other. *)
Definition risk_in_range (session : Session) : Prop :=
  (0 <= risk_score session <= 1)%Q.

Definition status_known (session : Session) : Prop :=
  status session = "active" \/ status session = "ended".

Definition counters_consistent (session : Session) : Prop :=
  0 <= tab_switches session < event_count session
  /\ (last_tab_switch session = None <-> tab_switches session = 0).

Definition session_invariant (session : Session) : Prop :=
  risk_in_range session /\ status_known session /\ counters_consistent session.

Definition table_invariant (self : SessionMonitor) : Prop :=
  forall sid session,
    active_sessions self !! sid = Some session -> session_invariant session.

(** Each alert of a list was made by [_create_alert] for the event, the
    one in position [k] by the call that follows [k] earlier calls. *)
Definition created_in_turn (clk : Clock) (event : SessionEvent.t)
    (alerts : list SecurityAlert.t) : Prop :=
  forall k alert,
    alerts !! k = Some alert ->
    exists level description, alert = _create_alert clk k event level description.

(** Clock readings of an event stamped and analysed at second 11, whose
    alerts are created one second apart, from second 11 on; and the
    second alert, that of the heartbeat rule, of an inactivity report of
    31 seconds processed with them by [started_monitor]. *)
Definition ticking_clock : Clock :=
  mkClock 11000000 11000000 (fun n => 11 + Z.of_nat n).

Definition second_alert : SecurityAlert.t :=
  _create_alert ticking_clock 1
    (SessionEvent.mk "u" "s" INACTIVITY 11000000 {["duration" := PyNum (31 # 1)]}
       None None None)
    CRITICAL (HeartbeatTimeout (11000000 # 1000000)).

(** The event type under which [create_event] accepts a request, if it
    does, and the same for the requests that name a given session. *)
Definition accepted_type (event_data : EventData.t) : option EventType :=
  match EventData.user_id event_data, EventData.session_id event_data,
        EventData.event_type event_data with
  | Some _, Some _, Some value =>
      match EventType_call value with
      | Ok event_type => Some event_type
      | Raise _ => None
      end
  | _, _, _ => None
  end.

Definition accepted_for (sid : string) (event_data : EventData.t) : option EventType :=
  if decide (EventData.session_id event_data = Some sid) then accepted_type event_data
  else None.

(** The number of inputs of a run that satisfy a decidable property. *)
Definition count_inputs (P : EventData.t -> Prop) `{forall event_data, Decision (P event_data)}
    (inputs : list (Clock * EventData.t)) : Z :=
  Z.of_nat (length (filter (fun input => P input.2) inputs)).

(** A run with requests for the session ["s"] (an inactivity report
    whose analysis raises, a tab switch, a request of unknown type), and
    a request for another session. *)
Definition mixed_run : list (Clock * EventData.t) :=
  [ (clock_at 1, event_of "u" "s" "inactivity" {["duration" := PyStr "long"]});
    (clock_at 2, event_of "v" "t" "session_start" ∅);
    (clock_at 3, event_of "u" "s" "tab_switch" ∅);
    (clock_at 4, event_of "u" "s" "page_reload" ∅) ].

(** * Properties *)

(** ** Basic facts about the monad and the comparisons *)

Lemma Qlt_bool_iff (a b : Q) : Qlt_bool a b = true <-> (a < b)%Q.
Proof.
  unfold Qlt_bool. rewrite negb_true_iff, <- not_true_iff_false, Qle_bool_iff.
  split; [apply Qnot_le_lt | apply Qlt_not_le].
Qed.


Lemma total_seconds_gt (bound td : Z) :
  Qlt_bool (inject_Z bound) (total_seconds td) = true <-> bound * 1000000 < td.
Proof.
  rewrite Qlt_bool_iff. unfold Qlt, total_seconds, inject_Z. simpl. lia.
Qed.

(** ** The steps of the analysis, one lemma each *)

Ltac unfold_monad :=
  unfold mbind, mret, M_bind, M_ret, gets, lift, try_except, getitem, log_error,
    if_in_active_sessions, assign_session, store_alert in *.

Lemma set_risk_score_same (s : Session) : set_risk_score (risk_score s) s = s.
Proof. by destruct s. Qed.

Lemma monitor_eta (self : SessionMonitor) :
  mkMonitor (ml_model self) (active_sessions self) (security_alerts self) (error_log self) = self.
Proof. by destruct self. Qed.

Lemma store_alerts_spec (alerts : list SecurityAlert.t) (self : SessionMonitor) :
  store_alerts alerts self =
  (Ok tt, mkMonitor (ml_model self) (active_sessions self)
                    (security_alerts self ++ alerts) (error_log self)).
Proof.
  revert self. induction alerts as [|a rest IH]; intros self; simpl.
  - unfold_monad. by rewrite app_nil_r, monitor_eta.
  - unfold_monad. rewrite IH. simpl. by rewrite <- app_assoc.
Qed.

(** The values of the two float literals. *)
Lemma RISK_FLOOR_value : RISK_FLOOR = (3602879701896397 # 4503599627370496)%Q.
Proof. vm_compute. reflexivity. Qed.

Lemma SUSPICIOUS_SCORE_THRESHOLD_value :
  SUSPICIOUS_SCORE_THRESHOLD = (3152519739159347 # 4503599627370496)%Q.
Proof. vm_compute. reflexivity. Qed.

(** The clamp gives a value between 0 and 1 for every double, infinite
    and NaN included. *)
Lemma clamp_range (x : float) : (0 <= clamp x <= 1)%Q.
Proof.
  unfold clamp, float_max, float_min.
  destruct (float_view x) as [value|[]|]; simpl; try (split; discriminate).
  destruct (Qlt_bool value 1) eqn:E1; simpl.
  - apply Qlt_bool_iff in E1. destruct (Qlt_bool 0 value) eqn:E2.
    + apply Qlt_bool_iff in E2. split; lra.
    + split; discriminate.
  - split; discriminate.
Qed.

(** The truth test reads the model and nothing else. *)
Lemma ml_model_bool_spec (self : SessionMonitor) :
  ml_model_bool self = (model_truth (ml_model self), self).
Proof. unfold ml_model_bool, model_truth. unfold_monad. by destruct (ml_model self). Qed.

Lemma logged_nil (self : SessionMonitor) : logged [] self = self.
Proof. unfold logged. by rewrite app_nil_r, monitor_eta. Qed.

Lemma ml_model_decision_function_spec (features : list PyVal) (self : SessionMonitor) :
  ml_model_decision_function features self = (model_score (ml_model self) features, self).
Proof.
  unfold ml_model_decision_function, model_score. unfold_monad.
  by destruct (ml_model self).
Qed.

(** What the risk computation returns and logs. *)
Lemma _calculate_ml_risk_score_spec (event : SessionEvent.t) (session : Session)
    (self : SessionMonitor) :
  _calculate_ml_risk_score event session self =
  match model_truth (ml_model self) with
  | Ok true =>
      match model_score (ml_model self) (features event session) with
      | Ok score => (Ok (clamp (1 - (score + 0.5))%float), self)
      | Raise e => (Ok 0%Q, logged [ErrorCalculatingRiskScore e] self)
      end
  | Ok false => (Ok 0%Q, self)
  | Raise e => (Ok 0%Q, logged [ErrorCalculatingRiskScore e] self)
  end.
Proof.
  unfold _calculate_ml_risk_score, try_except, mbind, M_bind.
  rewrite ml_model_bool_spec.
  destruct (model_truth (ml_model self)) as [[]|e]; [|done|done].
  rewrite ml_model_decision_function_spec.
  by destruct (model_score (ml_model self) (features event session)).
Qed.

(** The risk computation always returns: a score between 0 and 1, and a
    monitor that differs by at most one record in the log. *)
Lemma _calculate_ml_risk_score_returns (event : SessionEvent.t) (session : Session)
    (self : SessionMonitor) :
  exists risk records,
    _calculate_ml_risk_score event session self = (Ok risk, logged records self)
    /\ (0 <= risk <= 1)%Q.
Proof.
  rewrite _calculate_ml_risk_score_spec. unfold logged.
  destruct (model_truth (ml_model self)) as [[]|e].
  - destruct (model_score (ml_model self) (features event session)) as [score|e].
    + eexists _, []. rewrite app_nil_r, monitor_eta. split; [done | apply clamp_range].
    + eexists _, [_]. split; [done | split; discriminate].
  - exists 0%Q, []. rewrite app_nil_r, monitor_eta. split; [done | split; discriminate].
  - eexists _, [_]. split; [done | split; discriminate].
Qed.

Lemma with_risk_same (session_id : string) (session : Session) (self : SessionMonitor) :
  active_sessions self !! session_id = Some session ->
  with_risk session_id session (risk_score session) [] self = self.
Proof.
  intros H. unfold with_risk.
  by rewrite set_risk_score_same, insert_id, app_nil_r, monitor_eta.
Qed.

(** The scoring rule: it raises when the truth test of the model does,
    does nothing when the test is false, and otherwise stores what the
    risk computation returns. *)
Lemma check_ml_exact (clk : Clock) (event : SessionEvent.t) (session : Session)
    (alerts : list SecurityAlert.t) (self : SessionMonitor) (risk : Q)
    (records : list LogRecord) :
  active_sessions self !! SessionEvent.session_id event = Some session ->
  _calculate_ml_risk_score event session self = (Ok risk, logged records self) ->
  check_ml clk event session alerts self =
  match model_truth (ml_model self) with
  | Raise e => (Raise e, self)
  | Ok true =>
      (Ok (scored_alerts clk (Some risk) event alerts),
       with_risk (SessionEvent.session_id event) session risk records self)
  | Ok false => (Ok alerts, self)
  end.
Proof.
  intros Hs Hcalc. unfold check_ml, mbind, M_bind. rewrite ml_model_bool_spec.
  destruct (model_truth (ml_model self)) as [[]|e]; [|done|done].
  rewrite Hcalc. unfold_monad. unfold logged. simpl. rewrite Hs.
  unfold scored_alerts, with_risk. by destruct (Qlt_bool _ _).
Qed.

(** The analysis of an event of a known session, exactly. *)
Lemma analyze_security_exact (clk : Clock) (event : SessionEvent.t) (session : Session)
    (self : SessionMonitor) (checked : list SecurityAlert.t) (risk : Q)
    (records : list LogRecord) :
  active_sessions self !! SessionEvent.session_id event = Some session ->
  check_inactivity clk event (check_tab_switches clk event session []) = Ok checked ->
  _calculate_ml_risk_score event session self = (Ok risk, logged records self) ->
  analyze_security clk event self =
  match model_truth (ml_model self) with
  | Raise e => (Raise e, self)
  | Ok true =>
      let alerts :=
        scored_alerts clk (Some risk) event (check_heartbeat clk event session checked) in
      (Ok tt, mkMonitor (ml_model self)
                (<[SessionEvent.session_id event :=
                     set_risk_score (final_risk alerts risk) session]> (active_sessions self))
                (security_alerts self ++ alerts) (error_log self ++ records))
  | Ok false =>
      let alerts := check_heartbeat clk event session checked in
      (Ok tt, mkMonitor (ml_model self)
                (<[SessionEvent.session_id event :=
                     set_risk_score (final_risk alerts (risk_score session)) session]>
                   (active_sessions self))
                (security_alerts self ++ alerts) (error_log self))
  end.
Proof.
  intros Hs Hin Hcalc. unfold analyze_security. unfold_monad.
  rewrite Hs, Hin, (check_ml_exact _ _ _ _ _ risk records Hs Hcalc).
  destruct (model_truth (ml_model self)) as [[]|e]; [| |done]; cbv zeta;
    [generalize (scored_alerts clk (Some risk) event
                   (check_heartbeat clk event session checked))
    |generalize (check_heartbeat clk event session checked)];
    intros alerts; rewrite store_alerts_spec;
    unfold update_risk_score, with_risk; unfold_monad; simpl;
    destruct alerts as [|a l]; simpl.
  - done.
  - rewrite lookup_insert_eq. simpl. by rewrite insert_insert_eq.
  - by rewrite app_nil_r, set_risk_score_same, insert_id, monitor_eta.
  - by rewrite Hs.
Qed.

Lemma final_risk_bounds (alerts : list SecurityAlert.t) (risk : Q) :
  (0 <= risk <= 1 -> 0 <= final_risk alerts risk <= 1)%Q.
Proof.
  intros Hb. destruct alerts as [|a l]; simpl; [done|].
  unfold py_max. rewrite RISK_FLOOR_value.
  destruct (Qlt_bool risk _); [split; discriminate | done].
Qed.

Lemma analyze_security_unknown (clk : Clock) (event : SessionEvent.t) (self : SessionMonitor) :
  active_sessions self !! SessionEvent.session_id event = None ->
  analyze_security clk event self = (Ok tt, self).
Proof. intros H. unfold analyze_security. unfold_monad. by rewrite H. Qed.

(** The analysis of an event of a known session: it raises when the
    inactivity check or the truth test of the model does, before anything
    is stored or written; otherwise it stores the alerts of the four
    checks in order and leaves the session with the risk score of
    [final_risk]. *)
Lemma analyze_security_known (clk : Clock) (event : SessionEvent.t) (session : Session)
    (self : SessionMonitor) :
  active_sessions self !! SessionEvent.session_id event = Some session ->
  match check_inactivity clk event (check_tab_switches clk event session []) with
  | Raise e => analyze_security clk event self = (Raise e, self)
  | Ok checked =>
      match model_truth (ml_model self) with
      | Raise e => analyze_security clk event self = (Raise e, self)
      | Ok truth =>
          exists risk records extra,
            let alerts := check_heartbeat clk event session checked ++ extra in
            analyze_security clk event self =
              (Ok tt, mkMonitor (ml_model self)
                        (<[SessionEvent.session_id event :=
                             set_risk_score (final_risk alerts risk) session]>
                           (active_sessions self))
                        (security_alerts self ++ alerts)
                        (error_log self ++ records))
            /\ (extra = [] \/
                extra = [_create_alert clk
                           (length (check_heartbeat clk event session checked))
                           event HIGH (MLFlagged risk)])
            /\ (truth = false -> extra = [] /\ risk = risk_score session /\ records = [])
            /\ ((0 <= risk_score session <= 1)%Q -> (0 <= risk <= 1)%Q)
      end
  end.
Proof.
  intros Hs.
  destruct (check_inactivity _ _ _) as [checked|e] eqn:Hin.
  - destruct (_calculate_ml_risk_score_returns event session self)
      as (risk & records & Hcalc & Hb).
    rewrite (analyze_security_exact clk event session self checked risk records Hs Hin Hcalc).
    destruct (model_truth (ml_model self)) as [[]|e]; [| |done]; cbv zeta.
    + exists risk, records. unfold scored_alerts.
      destruct (Qlt_bool _ _); [eexists [_] | exists []]; rewrite ?app_nil_r;
        repeat split; try done; auto; apply Hb.
    + exists (risk_score session), [], []. rewrite !app_nil_r. repeat split; auto; tauto.
  - unfold analyze_security. unfold_monad. by rewrite Hs, Hin.
Qed.

(** ** Event creation and the state update *)

Lemma EventType_call_value (t : EventType) : EventType_call (EventType_value t) = Ok t.
Proof. by destruct t. Qed.

Lemma EventType_call_Ok (value : string) (t : EventType) :
  EventType_call value = Ok t <-> EventType_value t = value.
Proof.
  split; [|intros <-; apply EventType_call_value].
  unfold EventType_call.
  destruct (List.find _ _) as [t'|] eqn:Hfind; [|discriminate].
  intros [= <-]. apply List.find_some in Hfind as [_ Heq].
  by apply String.eqb_eq in Heq.
Qed.

Lemma EventType_call_Raise (value : string) (e : PyExc) :
  EventType_call value = Raise e <->
  e = ValueError value /\ forall t, EventType_value t <> value.
Proof.
  split.
  - intros H. split.
    + unfold EventType_call in H. destruct (List.find _ _); congruence.
    + intros t Ht. apply EventType_call_Ok in Ht. congruence.
  - intros [-> Hno]. unfold EventType_call.
    destruct (List.find _ _) as [t|] eqn:Hfind; [|reflexivity].
    apply List.find_some in Hfind as [_ Heq]. apply String.eqb_eq in Heq.
    by destruct (Hno t).
Qed.

(** [create_event] reads the state and never writes it. *)
Lemma create_event_state (clk : Clock) (event_data : EventData.t) (self : SessionMonitor) :
  (create_event clk event_data self).2 = self.
Proof.
  unfold create_event. unfold_monad.
  destruct event_data as [[u|] [s|] [ty|] md df ip ua]; simpl; try reflexivity.
  by destruct (EventType_call ty).
Qed.

Lemma create_event_Ok (clk : Clock) (event_data : EventData.t) (self : SessionMonitor)
    (event : SessionEvent.t) :
  (create_event clk event_data self).1 = Ok event <->
  EventData.user_id event_data = Some (SessionEvent.user_id event) /\
  EventData.session_id event_data = Some (SessionEvent.session_id event) /\
  EventData.event_type event_data = Some (EventType_value (SessionEvent.event_type event)) /\
  SessionEvent.timestamp event = utcnow_event clk /\
  SessionEvent.metadata event = default ∅ (EventData.metadata event_data) /\
  SessionEvent.device_fingerprint event = EventData.device_fingerprint event_data /\
  SessionEvent.ip_address event = EventData.ip_address event_data /\
  SessionEvent.user_agent event = EventData.user_agent event_data.
Proof.
  unfold create_event. unfold_monad.
  destruct event_data as [u s ty md df ip ua], event as [u' s' t' ts' md' df' ip' ua'].
  simpl. split.
  - destruct u as [u|], s as [s|], ty as [ty|]; simpl; try discriminate.
    destruct (EventType_call ty) as [t|e] eqn:Hty; simpl; [|discriminate].
    apply EventType_call_Ok in Hty. intros [=]. by subst.
  - intros (-> & -> & -> & -> & -> & -> & -> & ->). simpl.
    by rewrite EventType_call_value.
Qed.

(** [create_event] raises exactly when a required key is missing or the
    event type is not the value of a member. *)
Lemma create_event_Raise (clk : Clock) (event_data : EventData.t) (self : SessionMonitor) :
  (exists e, (create_event clk event_data self).1 = Raise e) <->
  EventData.user_id event_data = None \/
  EventData.session_id event_data = None \/
  EventData.event_type event_data = None \/
  exists value, EventData.event_type event_data = Some value /\
                forall t, EventType_value t <> value.
Proof.
  unfold create_event. unfold_monad.
  destruct event_data as [u s ty md df ip ua]. simpl. split.
  - intros [e He].
    destruct u as [u|]; [|by left].
    destruct s as [s|]; [|by right; left].
    destruct ty as [ty|]; [|by right; right; left].
    right; right; right. exists ty. split; [done|]. simpl in He.
    destruct (EventType_call ty) as [t|e'] eqn:Hty; [discriminate|].
    by apply EventType_call_Raise in Hty as [_ Hno].
  - intros [->|[->|[->|(value & -> & Hno)]]].
    + by eexists.
    + destruct u; by eexists.
    + destruct u, s; by eexists.
    + destruct u, s; simpl; try by eexists.
      assert (EventType_call value = Raise (ValueError value)) as ->
        by by apply EventType_call_Raise.
      by eexists.
Qed.

(** The state update never raises, touches only the entry of the event's
    session, and leaves that entry as the event type prescribes. *)
Lemma update_session_state_spec (event : SessionEvent.t) (self : SessionMonitor) :
  exists sessions',
    update_session_state event self =
      (Ok tt, mkMonitor (ml_model self) sessions' (security_alerts self) (error_log self))
    /\ (forall session_id, session_id <> SessionEvent.session_id event ->
          sessions' !! session_id = active_sessions self !! session_id)
    /\ match SessionEvent.event_type event,
             active_sessions self !! SessionEvent.session_id event with
       | SESSION_START, _ =>
           sessions' !! SessionEvent.session_id event =
           Some (mkSession (SessionEvent.user_id event) (SessionEvent.timestamp event)
                   (SessionEvent.timestamp event) "active" 0 1 0 None)
       | _, None => sessions' = active_sessions self
       | HEARTBEAT, Some session =>
           sessions' !! SessionEvent.session_id event =
           Some (set_event_count (event_count session + 1)
                   (set_last_heartbeat (SessionEvent.timestamp event) session))
       | SESSION_END, Some session =>
           sessions' !! SessionEvent.session_id event =
           Some (set_event_count (event_count session + 1) (set_status "ended" session))
       | TAB_SWITCH, Some session =>
           sessions' !! SessionEvent.session_id event =
           Some (set_event_count (event_count session + 1)
                   (set_last_tab_switch (Some (SessionEvent.timestamp event))
                      (set_tab_switches (tab_switches session + 1) session)))
       | _, Some session =>
           sessions' !! SessionEvent.session_id event =
           Some (set_event_count (event_count session + 1) session)
       end.
Proof.
  destruct self as [model sessions stored records].
  unfold update_session_state. unfold_monad. simpl.
  destruct (sessions !! SessionEvent.session_id event) as [session|] eqn:Hs;
    destruct (SessionEvent.event_type event); simpl;
    rewrite ?Hs; simpl; rewrite ?lookup_insert_eq, ?Hs; simpl;
    eexists; (split; [reflexivity|]);
    rewrite ?insert_insert_eq, ?lookup_insert_eq;
    (split; [intros sid Hne; by rewrite ?lookup_insert_ne by done | try done]).
Qed.

(** ** The pipeline *)

(** [process_event] for a request from which an event is created. *)
Lemma process_event_created (clk : Clock) (event_data : EventData.t) (self : SessionMonitor)
    (event : SessionEvent.t) :
  (create_event clk event_data self).1 = Ok event ->
  process_event clk event_data self =
  try_except (update_session_state event ;; analyze_security clk event)
             (fun e => log_error (ErrorProcessingEvent e)) self.
Proof.
  intros Hc. pose proof (create_event_state clk event_data self) as Hst.
  unfold process_event. unfold_monad.
  destruct (create_event clk event_data self) as [r self0]. simpl in *. by subst.
Qed.

(** [process_event] for a request from which no event is created. *)
Lemma process_event_rejected (clk : Clock) (event_data : EventData.t) (self : SessionMonitor)
    (e : PyExc) :
  (create_event clk event_data self).1 = Raise e ->
  process_event clk event_data self =
  (Ok tt, mkMonitor (ml_model self) (active_sessions self) (security_alerts self)
                    (error_log self ++ [ErrorProcessingEvent e])).
Proof.
  intros Hc. pose proof (create_event_state clk event_data self) as Hst.
  unfold process_event. unfold_monad.
  destruct (create_event clk event_data self) as [r self0]. simpl in *. by subst.
Qed.

(** [process_event] catches every exception. *)
Lemma process_event_returns (clk : Clock) (event_data : EventData.t) (self : SessionMonitor) :
  (process_event clk event_data self).1 = Ok tt.
Proof.
  unfold process_event. unfold_monad.
  destruct (create_event clk event_data self) as [[event|e] self0]; [|done].
  destruct (update_session_state_spec event self0) as (sessions' & -> & _).
  by destruct (analyze_security _ _ _) as [[[]|e] self2].
Qed.

(** The dictionary that the route passes is processed as the body is. *)
Lemma process_event_dict (clk : Clock) (body : EventData.t) (self : SessionMonitor) :
  process_event clk (EventData_dict body) self = process_event clk body self.
Proof. by destruct body as [u s ty [md|] df ip ua]. Qed.

(** A body with the three required fields is answered with success. *)
Lemma receive_event_success (clk : Clock) (event_data : EventData.t) (self : SessionMonitor) :
  missing_fields event_data = [] ->
  receive_event clk event_data self = (StatusSuccess, (process_event clk event_data self).2).
Proof.
  intros Hm. unfold receive_event. rewrite Hm, process_event_dict.
  pose proof (process_event_returns clk event_data self) as H.
  destruct (process_event clk event_data self) as [[[]|e] self']; by simpl in *.
Qed.

(** The pipeline for the event of a session that the table holds after
    the state update. *)
Lemma process_event_known (clk : Clock) (event_data : EventData.t) (self : SessionMonitor)
    (event : SessionEvent.t) (sessions' : gmap string Session) (session : Session) :
  (create_event clk event_data self).1 = Ok event ->
  update_session_state event self =
    (Ok tt, mkMonitor (ml_model self) sessions' (security_alerts self) (error_log self)) ->
  sessions' !! SessionEvent.session_id event = Some session ->
  match check_inactivity clk event (check_tab_switches clk event session []) with
  | Raise e =>
      process_event clk event_data self =
      (Ok tt, mkMonitor (ml_model self) sessions' (security_alerts self)
                        (error_log self ++ [ErrorProcessingEvent e]))
  | Ok checked =>
      match model_truth (ml_model self) with
      | Raise e =>
          process_event clk event_data self =
          (Ok tt, mkMonitor (ml_model self) sessions' (security_alerts self)
                            (error_log self ++ [ErrorProcessingEvent e]))
      | Ok truth =>
          exists risk records extra,
            let alerts := check_heartbeat clk event session checked ++ extra in
            process_event clk event_data self =
              (Ok tt, mkMonitor (ml_model self)
                        (<[SessionEvent.session_id event :=
                             set_risk_score (final_risk alerts risk) session]> sessions')
                        (security_alerts self ++ alerts)
                        (error_log self ++ records))
            /\ (extra = [] \/
                extra = [_create_alert clk
                           (length (check_heartbeat clk event session checked))
                           event HIGH (MLFlagged risk)])
            /\ (truth = false -> extra = [] /\ risk = risk_score session /\ records = [])
            /\ ((0 <= risk_score session <= 1)%Q -> (0 <= risk <= 1)%Q)
      end
  end.
Proof.
  intros Hc Hu Hs. rewrite (process_event_created _ _ _ _ Hc).
  unfold try_except, mbind, M_bind. rewrite Hu.
  set (self1 := mkMonitor _ _ _ _).
  pose proof (analyze_security_known clk event session self1 Hs) as Ha.
  destruct (check_inactivity _ _ _) as [checked|e]; [|by rewrite Ha].
  change (ml_model self1) with (ml_model self) in Ha.
  destruct (model_truth (ml_model self)) as [truth|e]; [|by rewrite Ha].
  destruct Ha as (risk & records & extra & -> & Hextra & Hnone & Hb).
  exists risk, records, extra. done.
Qed.

(** The same, as two cases: the analysis raised and only the log grew,
    or it ran to its end. *)
Lemma process_event_known_cases (clk : Clock) (event_data : EventData.t)
    (self : SessionMonitor) (event : SessionEvent.t) (sessions' : gmap string Session)
    (session : Session) :
  (create_event clk event_data self).1 = Ok event ->
  update_session_state event self =
    (Ok tt, mkMonitor (ml_model self) sessions' (security_alerts self) (error_log self)) ->
  sessions' !! SessionEvent.session_id event = Some session ->
  (exists e,
     process_event clk event_data self =
     (Ok tt, mkMonitor (ml_model self) sessions' (security_alerts self)
                       (error_log self ++ [ErrorProcessingEvent e]))
     /\ (check_inactivity clk event (check_tab_switches clk event session []) = Raise e
         \/ model_truth (ml_model self) = Raise e))
  \/ (exists checked truth risk records extra,
        check_inactivity clk event (check_tab_switches clk event session []) = Ok checked
        /\ model_truth (ml_model self) = Ok truth
        /\ process_event clk event_data self =
           (Ok tt, mkMonitor (ml_model self)
                     (<[SessionEvent.session_id event :=
                          set_risk_score
                            (final_risk (check_heartbeat clk event session checked ++ extra)
                                        risk) session]> sessions')
                     (security_alerts self ++ check_heartbeat clk event session checked
                                          ++ extra)
                     (error_log self ++ records))
        /\ (extra = [] \/
            extra = [_create_alert clk
                       (length (check_heartbeat clk event session checked))
                       event HIGH (MLFlagged risk)])
        /\ (truth = false -> extra = [] /\ risk = risk_score session /\ records = [])
        /\ ((0 <= risk_score session <= 1)%Q -> (0 <= risk <= 1)%Q)).
Proof.
  intros Hc Hup Hs.
  pose proof (process_event_known clk event_data self event sessions' session Hc Hup Hs) as Hp.
  destruct (check_inactivity _ _ _) as [checked|e]; [|left; exists e; auto].
  destruct (model_truth (ml_model self)) as [truth|e]; [|left; exists e; auto].
  destruct Hp as (risk & records & extra & Hp & Hextra & Hnone & Hb).
  cbv zeta in Hp.
  right. exists checked, truth, risk, records, extra.
  split; [done|]. split; [done|]. split; [exact Hp|]. by split.
Qed.

(** The pipeline for the event of a session that the table does not hold
    after the state update. *)
Lemma process_event_unknown (clk : Clock) (event_data : EventData.t) (self : SessionMonitor)
    (event : SessionEvent.t) :
  (create_event clk event_data self).1 = Ok event ->
  SessionEvent.event_type event <> SESSION_START ->
  active_sessions self !! SessionEvent.session_id event = None ->
  process_event clk event_data self = (Ok tt, self).
Proof.
  intros Hc Hty Hs. rewrite (process_event_created _ _ _ _ Hc).
  destruct (update_session_state_spec event self) as (sessions' & Hu & _ & Hcase).
  rewrite Hs in Hcase.
  assert (sessions' = active_sessions self) as ->
    by (destruct (SessionEvent.event_type event); done).
  rewrite monitor_eta in Hu.
  unfold try_except, mbind, M_bind. rewrite Hu.
  by rewrite analyze_security_unknown.
Qed.

Lemma alerts_of_app (clk : Clock) (event_data : EventData.t) (self : SessionMonitor)
    (alerts : list SecurityAlert.t) :
  security_alerts (process_event clk event_data self).2 = security_alerts self ++ alerts ->
  alerts_of clk event_data self = alerts.
Proof. intros H. unfold alerts_of. by rewrite H, drop_app_length. Qed.

(** ** Validation *)

(** C2, as the code has it. A request body that lacks [user_id],
    [session_id] or [event_type] fails validation at the REST route: it
    is answered with status 422 and the missing fields, and nothing is
    processed or changed. A body with the three fields is answered with
    success whatever they hold. Inside [process_event] a request is
    rejected exactly when one of the three keys is missing (possible on
    the WebSocket path only) or the event type is not the value of a
    member of [EventType]; the rejection is logged by [process_event],
    which returns normally, and changes neither the session table nor the
    stored alerts: an unknown event type is not reported to the caller of
    the route. An empty string is accepted for either identifier. Every
    request that is not rejected reaches the state update and the
    analysis. *)
Theorem rejected_requests_change_no_state
    (clk : Clock) (event_data : EventData.t) (self : SessionMonitor) :
  match missing_fields event_data with
  | [] =>
      receive_event clk event_data self
      = (StatusSuccess, (process_event clk event_data self).2)
  | missing => receive_event clk event_data self = (RequestValidationError missing, self)
  end
  /\ (missing_fields event_data = [] <->
      is_Some (EventData.user_id event_data)
      /\ is_Some (EventData.session_id event_data)
      /\ is_Some (EventData.event_type event_data))
  /\ ((exists e, (create_event clk event_data self).1 = Raise e) <->
      EventData.user_id event_data = None \/
      EventData.session_id event_data = None \/
      EventData.event_type event_data = None \/
      exists value, EventData.event_type event_data = Some value /\
                    forall t, EventType_value t <> value)
  /\ match (create_event clk event_data self).1 with
     | Raise e =>
         process_event clk event_data self =
         (Ok tt, mkMonitor (ml_model self) (active_sessions self) (security_alerts self)
                           (error_log self ++ [ErrorProcessingEvent e]))
     | Ok event =>
         process_event clk event_data self =
         try_except (update_session_state event ;; analyze_security clk event)
                    (fun e => log_error (ErrorProcessingEvent e)) self
     end.
Proof.
  split; [|split; [|split; [apply create_event_Raise|]]].
  - destruct (missing_fields event_data) eqn:Hm; [by apply receive_event_success|].
    unfold receive_event. by rewrite Hm.
  - unfold missing_fields.
    destruct (EventData.user_id event_data), (EventData.session_id event_data),
      (EventData.event_type event_data); simpl;
      (split; [try discriminate; intros _; repeat split; by eexists
              |try done; intros (Hu & Hs & Ht);
               first [by destruct Hu | by destruct Hs | by destruct Ht]]).
  - destruct (create_event clk event_data self).1 as [event|e] eqn:Hc.
    + by apply process_event_created.
    + by apply process_event_rejected.
Qed.

(** C2 fails as stated: a [session_start] whose [user_id] and
    [session_id] are empty strings is answered with success and creates
    the session [""]; a request with an unknown event type is answered
    with success as well. *)
Lemma empty_identifiers_are_accepted :
  EventData.user_id empty_ids_start = Some ""
  /\ EventData.session_id empty_ids_start = Some ""
  /\ active_sessions (new_monitor None) !! "" = None
  /\ (receive_event (clock_at 0) empty_ids_start (new_monitor None)).1 = StatusSuccess
  /\ active_sessions (receive_event (clock_at 0) empty_ids_start (new_monitor None)).2 !! ""
     = Some (mkSession "" 0 0 "active" 0 1 0 None)
  /\ (receive_event (clock_at 0) (event_of "u" "s" "page_reload" ∅) (new_monitor None)).1
     = StatusSuccess.
Proof. repeat split; vm_compute; reflexivity. Qed.

(** ** Events of unknown sessions *)

(** C7. An event other than [session_start] whose session is not in the
    table is accepted: [process_event] returns normally, nothing is
    logged, no alert is stored and the monitor is left as it was. *)
Theorem unknown_session_is_skipped
    (clk : Clock) (event_data : EventData.t) (self : SessionMonitor)
    (user_id session_id : string) (event_type : EventType) :
  EventData.user_id event_data = Some user_id ->
  EventData.session_id event_data = Some session_id ->
  EventData.event_type event_data = Some (EventType_value event_type) ->
  event_type <> SESSION_START ->
  active_sessions self !! session_id = None ->
  process_event clk event_data self = (Ok tt, self)
  /\ receive_event clk event_data self = (StatusSuccess, self)
  /\ alerts_of clk event_data self = [].
Proof.
  intros Hu Hsid Hty Hne Hs.
  set (event := SessionEvent.mk user_id session_id event_type (utcnow_event clk)
                  (default ∅ (EventData.metadata event_data))
                  (EventData.device_fingerprint event_data)
                  (EventData.ip_address event_data) (EventData.user_agent event_data)).
  assert ((create_event clk event_data self).1 = Ok event) as Hc
    by (apply create_event_Ok; by repeat split).
  assert (process_event clk event_data self = (Ok tt, self)) as Hp
    by by apply (process_event_unknown _ _ _ event).
  split; [done|]. split.
  - rewrite receive_event_success, Hp; [done|].
    unfold missing_fields. by rewrite Hu, Hsid, Hty.
  - apply alerts_of_app. by rewrite Hp, app_nil_r.
Qed.

Lemma unknown_session_is_skipped_witness :
  process_event (clock_at 5) (event_of "u" "s" "heartbeat" ∅) (new_monitor None)
    = (Ok tt, new_monitor None)
  /\ receive_event (clock_at 5) (event_of "u" "s" "heartbeat" ∅) (new_monitor None)
    = (StatusSuccess, new_monitor None)
  /\ alerts_of (clock_at 5) (event_of "u" "s" "heartbeat" ∅) (new_monitor None) = [].
Proof.
  apply (unknown_session_is_skipped _ _ _ "u" "s" HEARTBEAT);
    [reflexivity | reflexivity | reflexivity | discriminate | reflexivity].
Defined.

(** ** Session start *)

(** C3, as the code has it. After a [session_start] event has gone
    through the pipeline the session is active, belongs to the event's
    user, has [start_time] and [last_heartbeat] equal to the ingestion
    timestamp, no tab switch, and an event count of 1: the start event is
    counted like any other. Its risk score is 0 when no model is
    configured and the analysis reads its clock within the heartbeat
    timeout of the ingestion timestamp. *)
Theorem session_start_creates_counted_session
    (clk : Clock) (event_data : EventData.t) (self : SessionMonitor)
    (uid sid : string) :
  EventData.user_id event_data = Some uid ->
  EventData.session_id event_data = Some sid ->
  EventData.event_type event_data = Some "session_start" ->
  exists session,
    active_sessions (process_event clk event_data self).2 !! sid = Some session
    /\ user_id session = uid
    /\ status session = "active"
    /\ event_count session = 1
    /\ tab_switches session = 0
    /\ last_tab_switch session = None
    /\ start_time session = utcnow_event clk
    /\ last_heartbeat session = utcnow_event clk
    /\ (ml_model self = None ->
        utcnow_analysis clk - utcnow_event clk <= 10 * 1000000 ->
        risk_score session = 0%Q).
Proof.
  intros Hu Hsid Hty.
  set (event := SessionEvent.mk uid sid SESSION_START (utcnow_event clk)
                  (default ∅ (EventData.metadata event_data))
                  (EventData.device_fingerprint event_data)
                  (EventData.ip_address event_data) (EventData.user_agent event_data)).
  assert ((create_event clk event_data self).1 = Ok event) as Hc
    by (apply create_event_Ok; by repeat split).
  destruct (update_session_state_spec event self) as (sessions' & Hup & _ & Hnew).
  simpl in Hnew.
  pose proof (process_event_known clk event_data self event sessions' _ Hc Hup Hnew) as Hp.
  simpl in Hp. destruct (model_truth (ml_model self)) as [truth|e] eqn:Ht.
  - destruct Hp as (risk & records & extra & -> & Hextra & Hnone & _).
    simpl. rewrite lookup_insert_eq. eexists. split; [reflexivity|].
    repeat split. simpl. intros Hm Hclk.
    rewrite Hm in Ht. injection Ht as <-.
    destruct (Hnone eq_refl) as (-> & -> & _). rewrite app_nil_r.
    unfold check_heartbeat. simpl.
    destruct (Qlt_bool _ _) eqn:Hq; [|reflexivity].
    apply (total_seconds_gt 10) in Hq. lia.
  - rewrite Hp. simpl. rewrite Hnew. eexists. split; [reflexivity|]. by repeat split.
Qed.

Lemma session_start_creates_counted_session_witness :
  exists session,
    active_sessions
      (process_event (clock_at 0) (event_of "u" "s" "session_start" ∅) (new_monitor None)).2
      !! "s" = Some session
    /\ user_id session = "u"
    /\ status session = "active"
    /\ event_count session = 1
    /\ tab_switches session = 0
    /\ last_tab_switch session = None
    /\ start_time session = utcnow_event (clock_at 0)
    /\ last_heartbeat session = utcnow_event (clock_at 0)
    /\ (ml_model (new_monitor None) = None ->
        utcnow_analysis (clock_at 0) - utcnow_event (clock_at 0) <= 10 * 1000000 ->
        risk_score session = 0%Q).
Proof.
  apply (session_start_creates_counted_session _ _ _ "u" "s"); reflexivity.
Defined.

(** C3 fails as stated: after a [session_start] has been processed the
    event count of the new session is 1, and with a model configured its
    risk score is what the model gives, here 1. *)
Lemma session_start_is_counted :
  event_count <$>
    (active_sessions
       (process_event (clock_at 0) (event_of "u" "s" "session_start" ∅) (new_monitor None)).2
     !! "s") = Some 1
  /\ risk_score <$>
    (active_sessions
       (process_event (clock_at 0) (event_of "u" "s" "session_start" ∅)
          (new_monitor (Some outlier_model))).2
     !! "s") = Some 1%Q.
Proof. split; vm_compute; reflexivity. Qed.

(** ** Missing and failing scorer *)

(** With no model the scoring rule does nothing: the alerts of the other
    rules and the monitor pass through unchanged. *)
Lemma missing_scorer_contributes_nothing
    (clk : Clock) (event : SessionEvent.t) (session : Session)
    (alerts : list SecurityAlert.t) (self : SessionMonitor) :
  ml_model self = None ->
  check_ml clk event session alerts self = (Ok alerts, self).
Proof.
  intros Hm. unfold check_ml, mbind, M_bind. rewrite ml_model_bool_spec. by rewrite Hm.
Qed.

(** C4 at inputs where the code misses it. With the forest that the
    code builds and never fits, the test [if self.ml_model:] of the
    analysis raises [AttributeError] outside any handler: for an
    inactivity report of 31 seconds, 11 seconds after the last heartbeat,
    the inactivity alert and the heartbeat alert are created but not
    stored, the risk score stays 0, and [process_event] logs the error;
    without a model the same event stores both alerts and raises the risk
    score to the floor. With a model that is true and whose
    [decision_function] raises, the scoring rule resets a risk score at
    the floor to 0 on a heartbeat that fires no rule. *)
Theorem failing_scorer_breaks_the_analysis :
  alerts_of (clock_at 11)
    (event_of "u" "s" "inactivity" {["duration" := PyNum (31 # 1)]}) forest_monitor = []
  /\ error_log
       (process_event (clock_at 11)
          (event_of "u" "s" "inactivity" {["duration" := PyNum (31 # 1)]})
          forest_monitor).2
     = [ErrorProcessingEvent AttributeError; ErrorProcessingEvent AttributeError]
  /\ risk_score <$>
       (active_sessions
          (process_event (clock_at 11)
             (event_of "u" "s" "inactivity" {["duration" := PyNum (31 # 1)]})
             forest_monitor).2 !! "s") = Some 0%Q
  /\ SecurityAlert.security_level <$>
       alerts_of (clock_at 11)
         (event_of "u" "s" "inactivity" {["duration" := PyNum (31 # 1)]}) started_monitor
     = [MEDIUM; CRITICAL]
  /\ risk_score <$>
       (active_sessions
          (process_event (clock_at 11)
             (event_of "u" "s" "inactivity" {["duration" := PyNum (31 # 1)]})
             started_monitor).2 !! "s") = Some RISK_FLOOR
  /\ active_sessions flagged_session_monitor !! "s" = Some flagged_session
  /\ risk_score flagged_session = RISK_FLOOR
  /\ alerts_of (clock_at 2) (event_of "u" "s" "heartbeat" ∅) flagged_session_monitor = []
  /\ risk_score <$>
       (active_sessions
          (process_event (clock_at 2) (event_of "u" "s" "heartbeat" ∅)
             flagged_session_monitor).2 !! "s") = Some 0%Q.
Proof. repeat split; vm_compute; reflexivity. Qed.

(** ** Risk floor *)




(** ** Heartbeat timeout *)

Lemma critical_check_tab_switches (clk : Clock) (event : SessionEvent.t) (session : Session) :
  filter is_critical (check_tab_switches clk event session []) = [].
Proof.
  unfold check_tab_switches.
  destruct (decide _); [|done]. destruct (last_tab_switch session); [|done].
  by destruct (_ && _).
Qed.

Lemma critical_check_inactivity (clk : Clock) (event : SessionEvent.t)
    (alerts checked : list SecurityAlert.t) :
  check_inactivity clk event alerts = Ok checked ->
  filter is_critical checked = filter is_critical alerts.
Proof.
  unfold check_inactivity. destruct (decide _); [|by intros [= ->]].
  destruct (py_gt _ _) as [[]|]; intros [= <-]; [|done].
  rewrite filter_app. simpl. by rewrite app_nil_r.
Qed.

Lemma critical_check_heartbeat (clk : Clock) (event : SessionEvent.t) (session : Session)
    (alerts : list SecurityAlert.t) :
  filter is_critical (check_heartbeat clk event session alerts) =
  filter is_critical alerts ++
  if decide (10 * 1000000 < utcnow_analysis clk - last_heartbeat session) then
    [_create_alert clk (length alerts) event CRITICAL
       (HeartbeatTimeout (total_seconds (utcnow_analysis clk - last_heartbeat session)))]
  else [].
Proof.
  unfold check_heartbeat.
  pose proof (total_seconds_gt 10 (utcnow_analysis clk - last_heartbeat session)) as Hq.
  change (inject_Z 10) with HEARTBEAT_TIMEOUT in Hq.
  destruct (Qlt_bool _ _); destruct (decide _) as [Hlt|Hge].
  - by rewrite filter_app.
  - destruct Hge. by apply Hq.
  - by apply Hq in Hlt.
  - by rewrite app_nil_r.
Qed.

(** The heartbeat rule on an event whose analysis runs to its end: the
    session as the state update left it decides alone, and the rule adds
    one critical alert when the analysis clock is more than the timeout
    past its [last_heartbeat], none otherwise. No other rule creates a
    critical alert. *)
Lemma heartbeat_rule_when_analysis_completes
    (clk : Clock) (event_data : EventData.t) (self : SessionMonitor)
    (event : SessionEvent.t) (sessions' : gmap string Session) (session : Session)
    (checked : list SecurityAlert.t) (truth : bool) :
  (create_event clk event_data self).1 = Ok event ->
  update_session_state event self =
    (Ok tt, mkMonitor (ml_model self) sessions' (security_alerts self) (error_log self)) ->
  sessions' !! SessionEvent.session_id event = Some session ->
  check_inactivity clk event (check_tab_switches clk event session []) = Ok checked ->
  model_truth (ml_model self) = Ok truth ->
  critical_alerts clk event_data self =
  if decide (10 * 1000000 < utcnow_analysis clk - last_heartbeat session) then
    [_create_alert clk (length checked) event CRITICAL
       (HeartbeatTimeout (total_seconds (utcnow_analysis clk - last_heartbeat session)))]
  else [].
Proof.
  intros Hc Hup Hs Hin Ht.
  pose proof (process_event_known clk event_data self event sessions' session Hc Hup Hs) as Hp.
  rewrite Hin, Ht in Hp. destruct Hp as (risk & records & extra & Hp & Hextra & _).
  cbv zeta in Hp. unfold critical_alerts.
  rewrite (alerts_of_app _ _ _ (check_heartbeat clk event session checked ++ extra))
    by by rewrite Hp.
  rewrite filter_app, critical_check_heartbeat.
  rewrite (critical_check_inactivity _ _ _ _ Hin), critical_check_tab_switches.
  destruct Hextra as [-> | ->]; simpl; by rewrite app_nil_r.
Qed.

(** C6 at an input where the code misses it: the session ["s"] had its
    last heartbeat at second 0 and receives, at second 11, an inactivity
    event whose [duration] is a string. The comparison of the inactivity
    check raises [TypeError], [process_event] logs it, and the heartbeat
    check is never reached: no alert is stored although the timeout has
    passed. The same event with a numeric duration yields the critical
    alert. *)
Theorem heartbeat_check_skipped_after_type_error :
  last_heartbeat <$> (active_sessions started_monitor !! "s") = Some 0
  /\ utcnow_analysis (clock_at 11) = 11 * 1000000
  /\ process_event (clock_at 11)
       (event_of "u" "s" "inactivity" {["duration" := PyStr "long"]}) started_monitor
     = (Ok tt, mkMonitor None
                 {["s" := mkSession "u" 0 0 "active" 0 2 0 None]} []
                 [ErrorProcessingEvent TypeError])
  /\ critical_alerts (clock_at 11)
       (event_of "u" "s" "inactivity" {["duration" := PyStr "long"]}) started_monitor = []
  /\ SecurityAlert.description <$>
       critical_alerts (clock_at 11)
         (event_of "u" "s" "inactivity" {["duration" := PyNum (5 # 1)]}) started_monitor
     = [HeartbeatTimeout (11000000 # 1000000)].
Proof. repeat split; vm_compute; reflexivity. Qed.

(** C10, as the code has it. On a heartbeat event of a known session the
    state update sets [last_heartbeat] to the ingestion timestamp, so the
    heartbeat rule measures the time from the ingestion timestamp to the
    clock reading of the analysis, whatever the gap since the previous
    heartbeat; it does not fire as long as the analysis reads its clock
    at most the timeout after the ingestion timestamp. *)
Theorem heartbeat_event_restarts_timeout
    (clk : Clock) (event_data : EventData.t) (self : SessionMonitor)
    (uid sid : string) (session : Session) :
  EventData.user_id event_data = Some uid ->
  EventData.session_id event_data = Some sid ->
  EventData.event_type event_data = Some "heartbeat" ->
  active_sessions self !! sid = Some session ->
  utcnow_analysis clk - utcnow_event clk <= 10 * 1000000 ->
  critical_alerts clk event_data self = []
  /\ last_heartbeat <$> (active_sessions (process_event clk event_data self).2 !! sid)
     = Some (utcnow_event clk).
Proof.
  intros Hu Hsid Hty Hs Hclk.
  set (event := SessionEvent.mk uid sid HEARTBEAT (utcnow_event clk)
                  (default ∅ (EventData.metadata event_data))
                  (EventData.device_fingerprint event_data)
                  (EventData.ip_address event_data) (EventData.user_agent event_data)).
  assert ((create_event clk event_data self).1 = Ok event) as Hc
    by (apply create_event_Ok; by repeat split).
  destruct (update_session_state_spec event self) as (sessions' & Hup & _ & Hnew).
  simpl in Hnew. rewrite Hs in Hnew.
  destruct (process_event_known_cases clk event_data self event sessions' _ Hc Hup Hnew)
    as [(e & Hp & _) | (checked & truth & risk & records & extra & Hin & Ht & Hp & _)].
  - split.
    + unfold critical_alerts. rewrite (alerts_of_app _ _ _ []); [done|].
      by rewrite Hp, app_nil_r.
    + rewrite Hp. simpl. by rewrite Hnew.
  - split.
    + rewrite (heartbeat_rule_when_analysis_completes clk event_data self event sessions' _
                 checked truth Hc Hup Hnew Hin Ht).
      simpl. destruct (decide _); [lia | done].
    + rewrite Hp. simpl. by rewrite lookup_insert_eq.
Qed.

Lemma heartbeat_event_restarts_timeout_witness :
  critical_alerts (clock_at 100) (event_of "u" "s" "heartbeat" ∅) started_monitor = []
  /\ last_heartbeat <$>
       (active_sessions
          (process_event (clock_at 100) (event_of "u" "s" "heartbeat" ∅) started_monitor).2
        !! "s")
     = Some (utcnow_event (clock_at 100)).
Proof.
  apply (heartbeat_event_restarts_timeout _ _ _ "u" "s" (mkSession "u" 0 0 "active" 0 1 0 None));
    [reflexivity | reflexivity | reflexivity | reflexivity | vm_compute; discriminate].
Defined.

(** C10 fails as stated: a heartbeat stamped at second 2 and analysed at
    second 13 fires the heartbeat timeout for itself. *)
Lemma late_analysis_times_out_a_heartbeat :
  utcnow_event late_clock = 2 * 1000000
  /\ utcnow_analysis late_clock = 13 * 1000000
  /\ SecurityAlert.description <$>
       critical_alerts late_clock (event_of "u" "s" "heartbeat" ∅) started_monitor
     = [HeartbeatTimeout (11000000 # 1000000)]
  /\ SecurityAlert.event_type <$>
       critical_alerts late_clock (event_of "u" "s" "heartbeat" ∅) started_monitor
     = [HEARTBEAT].
Proof. repeat split; vm_compute; reflexivity. Qed.

(** ** Session table entries across the pipeline *)

(** Processing an event leaves the entries of all other sessions alone. *)
Lemma process_event_lookup_other (clk : Clock) (event_data : EventData.t)
    (self : SessionMonitor) (sid : string) :
  EventData.session_id event_data <> Some sid ->
  active_sessions (process_event clk event_data self).2 !! sid = active_sessions self !! sid.
Proof.
  intros Hne.
  destruct (create_event clk event_data self).1 as [event|e] eqn:Hc;
    [|by rewrite (process_event_rejected _ _ _ _ Hc)].
  assert (sid <> SessionEvent.session_id event) as Hne'.
  { apply create_event_Ok in Hc as (_ & Hsid & _). congruence. }
  destruct (update_session_state_spec event self) as (sessions' & Hup & Hframe & _).
  destruct (sessions' !! SessionEvent.session_id event) as [session|] eqn:Hs.
  - destruct (process_event_known_cases clk event_data self event sessions' session
                Hc Hup Hs)
      as [(e & -> & _) | (checked & truth & risk & records & extra & _ & _ & -> & _)].
    + simpl. by apply Hframe.
    + simpl. rewrite lookup_insert_ne by done. by apply Hframe.
  - rewrite (process_event_created _ _ _ _ Hc).
    unfold try_except, mbind, M_bind. rewrite Hup.
    rewrite analyze_security_unknown by done. simpl. by apply Hframe.
Qed.

(** Processing an event changes at most the risk score of the entry that
    the state update left for its session. *)
Lemma process_event_lookup_same (clk : Clock) (event_data : EventData.t)
    (self : SessionMonitor) (event : SessionEvent.t) (sessions' : gmap string Session)
    (session : Session) :
  (create_event clk event_data self).1 = Ok event ->
  update_session_state event self =
    (Ok tt, mkMonitor (ml_model self) sessions' (security_alerts self) (error_log self)) ->
  sessions' !! SessionEvent.session_id event = Some session ->
  exists risk,
    active_sessions (process_event clk event_data self).2 !! SessionEvent.session_id event
    = Some (set_risk_score risk session).
Proof.
  intros Hc Hup Hs.
  destruct (process_event_known_cases clk event_data self event sessions' session
              Hc Hup Hs)
    as [(e & -> & _) | (checked & truth & risk & records & extra & _ & _ & -> & _)].
  - simpl. exists (risk_score session). by rewrite set_risk_score_same.
  - simpl. rewrite lookup_insert_eq. by eexists.
Qed.

(** ** The reaper *)

Lemma lookup_foldl_delete (session_ids : list string) (sessions : gmap string Session)
    (sid : string) :
  foldl (fun sessions session_id => delete session_id sessions) sessions session_ids !! sid
  = if decide (sid ∈ session_ids) then None else sessions !! sid.
Proof.
  revert sessions. induction session_ids as [|k rest IH]; intros sessions; simpl.
  - destruct (decide (sid ∈ [])) as [Hin|]; [by apply elem_of_nil in Hin | done].
  - rewrite IH. destruct (decide (sid ∈ rest)) as [Hin|Hnin].
    + rewrite decide_True by (by right). done.
    + destruct (decide (sid = k)) as [->|Hne].
      * rewrite decide_True by (by left). apply lookup_delete_eq.
      * rewrite decide_False by (by intros [?|?]%elem_of_cons).
        by apply lookup_delete_ne.
Qed.

(** A sweep removes exactly the ended sessions and those whose last
    heartbeat is more than 300 seconds old. *)
Lemma cleanup_expired_sessions_lookup (current_time : Z) (self : SessionMonitor)
    (sid : string) :
  active_sessions (cleanup_expired_sessions current_time self) !! sid =
  match active_sessions self !! sid with
  | Some session => if is_expired current_time session then None else Some session
  | None => None
  end.
Proof.
  unfold cleanup_expired_sessions. simpl. rewrite lookup_foldl_delete.
  case_decide as Hin; [|rename Hin into Hnin].
  - apply list_elem_of_fmap in Hin as ([k session] & -> & Hin).
    apply list_elem_of_filter in Hin as [Hexp Hin]. simpl in *.
    apply elem_of_map_to_list in Hin. by rewrite Hin, Hexp.
  - destruct (active_sessions self !! sid) as [session|] eqn:Hs; [|done].
    destruct (is_expired current_time session) eqn:Hexp; [|done].
    destruct Hnin. apply list_elem_of_fmap. exists (sid, session). split; [done|].
    apply list_elem_of_filter. split; [done|]. by apply elem_of_map_to_list.
Qed.

(** ** Ended sessions *)

(** C8, as the code has it. The pipeline never removes a row of the
    session table. An ended session stays ended under every event except
    a [session_start] for its own id, which replaces the row by a fresh
    active session. The reaper's next sweep removes an ended session. *)
Theorem ended_is_terminal_until_restart
    (clk : Clock) (event_data : EventData.t) (self : SessionMonitor)
    (sid : string) (session : Session) :
  active_sessions self !! sid = Some session ->
  (exists session',
     active_sessions (process_event clk event_data self).2 !! sid = Some session'
     /\ (status session = "ended" ->
         (EventData.session_id event_data = Some sid ->
          EventData.event_type event_data <> Some "session_start") ->
         status session' = "ended"))
  /\ (status session = "ended" ->
      forall current_time,
        active_sessions (cleanup_expired_sessions current_time self) !! sid = None).
Proof.
  intros Hs. split.
  - destruct (decide (EventData.session_id event_data = Some sid)) as [Hsid|Hne];
      [|exists session; by rewrite process_event_lookup_other].
    destruct (create_event clk event_data self).1 as [event|e] eqn:Hc;
      [|exists session; by rewrite (process_event_rejected _ _ _ _ Hc)].
    pose proof Hc as Hfields. apply create_event_Ok in Hfields as (_ & Hsid' & Hty & _).
    assert (SessionEvent.session_id event = sid) as Heq by congruence.
    destruct (update_session_state_spec event self) as (sessions' & Hup & _ & Hnew).
    rewrite Heq, Hs in Hnew.
    assert (exists session1, sessions' !! sid = Some session1
              /\ (status session = "ended" ->
                  SessionEvent.event_type event <> SESSION_START ->
                  status session1 = "ended")) as (session1 & Hs1 & Hst).
    { destruct (SessionEvent.event_type event); eexists; (split; [exact Hnew|]); done. }
    rewrite <- Heq in Hs1.
    destruct (process_event_lookup_same clk event_data self event sessions' session1
                Hc Hup Hs1) as [risk Hp].
    rewrite Heq in Hp. eexists. split; [exact Hp|].
    intros Hended Hnot. simpl. apply Hst; [done|].
    intros Hstart. apply (Hnot Hsid). by rewrite Hty, Hstart.
  - intros Hended current_time. rewrite cleanup_expired_sessions_lookup, Hs.
    unfold is_expired. by rewrite Hended.
Qed.

Lemma ended_is_terminal_until_restart_witness :
  (exists session',
     active_sessions
       (process_event (clock_at 2) (event_of "u" "s" "tab_switch" ∅) ended_monitor).2 !! "s"
     = Some session'
     /\ (status (mkSession "u" 0 0 "ended" 0 2 0 None) = "ended" ->
         (EventData.session_id (event_of "u" "s" "tab_switch" ∅) = Some "s" ->
          EventData.event_type (event_of "u" "s" "tab_switch" ∅) <> Some "session_start") ->
         status session' = "ended"))
  /\ (status (mkSession "u" 0 0 "ended" 0 2 0 None) = "ended" ->
      forall current_time,
        active_sessions (cleanup_expired_sessions current_time ended_monitor) !! "s" = None).
Proof.
  apply (ended_is_terminal_until_restart (clock_at 2) (event_of "u" "s" "tab_switch" ∅)
           ended_monitor "s" (mkSession "u" 0 0 "ended" 0 2 0 None)).
  reflexivity.
Defined.

(** C8 fails as stated: a [session_start] for the id of an ended session
    makes it active again. *)
Lemma session_start_revives_ended_session :
  status <$> (active_sessions ended_monitor !! "s") = Some "ended"
  /\ status <$>
       (active_sessions
          (process_event (clock_at 2) (event_of "u" "s" "session_start" ∅) ended_monitor).2
        !! "s") = Some "active".
Proof. split; vm_compute; reflexivity. Qed.

(** ** Alert identifiers *)

(** The identifier of an alert is made of the second in which it is
    created and of the session id, and of nothing else. *)
Lemma alert_id_of_second_and_session (clk : Clock) (n m : nat) (event : SessionEvent.t)
    (level level' : SecurityLevel) (description description' : Description) :
  time_time clk n = time_time clk m ->
  SecurityAlert.alert_id (_create_alert clk n event level description)
  = SecurityAlert.alert_id (_create_alert clk m event level' description').
Proof. intros H. unfold _create_alert. simpl. by rewrite H. Qed.

(** C9 at an input where the code misses it: an inactivity report of 31
    seconds at second 11, for a session whose last heartbeat is at second
    0, fires the inactivity rule and the heartbeat rule; the two alerts,
    created in the same second, carry the same [alert_id]. *)
Theorem alert_ids_collide_within_a_second :
  SecurityAlert.security_level <$>
    alerts_of (clock_at 11)
      (event_of "u" "s" "inactivity" {["duration" := PyNum (31 # 1)]}) started_monitor
  = [MEDIUM; CRITICAL]
  /\ SecurityAlert.alert_id <$>
       alerts_of (clock_at 11)
         (event_of "u" "s" "inactivity" {["duration" := PyNum (31 # 1)]}) started_monitor
     = ["alert_11_s"; "alert_11_s"].
Proof. split; vm_compute; reflexivity. Qed.

(** ** Tab switches *)

(** On a [tab_switch] event the state update has just set
    [last_tab_switch] to the event's own timestamp, so the window test of
    the rule compares a difference of zero and always passes: the rule
    fires exactly when the number of tab switches since the session
    started exceeds the threshold. *)
Lemma check_tab_switches_after_update (clk : Clock) (event : SessionEvent.t)
    (session : Session) :
  SessionEvent.event_type event = TAB_SWITCH ->
  check_tab_switches clk event
    (set_event_count (event_count session + 1)
       (set_last_tab_switch (Some (SessionEvent.timestamp event))
          (set_tab_switches (tab_switches session + 1) session))) []
  = if TAB_SWITCH_THRESHOLD <? tab_switches session + 1 then
      [_create_alert clk 0 event HIGH (ExcessiveTabSwitching (tab_switches session + 1))]
    else [].
Proof.
  intros Hty. unfold check_tab_switches. rewrite decide_True by done. simpl.
  by rewrite Z.sub_diag.
Qed.

(** C1 at an input where the code misses it: tab switches at seconds 0,
    5 and 10 fire no alert; a fourth one at second 100, when none of the
    first three is within the last 60 seconds, fires the alert with a
    count of 4. (A heartbeat at second 95 keeps the heartbeat rule
    silent.) *)
Theorem tab_switch_count_is_cumulative :
  security_alerts three_switches_monitor = []
  /\ last_tab_switch <$> (active_sessions three_switches_monitor !! "s")
     = Some (Some (10 * 1000000))
  /\ SecurityAlert.security_level <$>
       alerts_of (clock_at 100) (event_of "u" "s" "tab_switch" ∅) three_switches_monitor
     = [HIGH]
  /\ SecurityAlert.description <$>
       alerts_of (clock_at 100) (event_of "u" "s" "tab_switch" ∅) three_switches_monitor
     = [ExcessiveTabSwitching 4].
Proof. repeat split; vm_compute; reflexivity. Qed.

(** * Further properties of the code *)

(** ** The reaper, continued *)

Lemma is_expired_false (current_time : Z) (session : Session) :
  is_expired current_time session = false <->
  status session <> "ended" /\ current_time - last_heartbeat session <= 300 * 1000000.
Proof.
  unfold is_expired.
  pose proof (total_seconds_gt 300 (current_time - last_heartbeat session)) as Hq.
  change (inject_Z 300) with (300 # 1)%Q in Hq.
  destruct (String.eqb_spec (status session) "ended") as [Hended|Hactive].
  - split; [done | by intros [? _]].
  - destruct (Qlt_bool _ _).
    + split; [done|]. intros [_ Hle]. assert (300 * 1000000 < current_time - last_heartbeat session)
        by by apply Hq. lia.
    + split; [|done]. intros _. split; [done|].
      destruct (decide (current_time - last_heartbeat session <= 300 * 1000000)); [done|].
      assert (false = true) by (apply Hq; lia). done.
Qed.

(** X1. A sweep of the reaper keeps exactly the sessions that are not
    ended and whose last heartbeat is at most 300 seconds before the
    sweep's clock reading (301 seconds: removed; 300 and 299: kept); the
    entries it keeps are unchanged, and so are the model, the stored
    alerts and the log. *)
Theorem reaper_keeps_exactly_live_sessions
    (current_time : Z) (self : SessionMonitor) (sid : string) (session : Session) :
  (active_sessions (cleanup_expired_sessions current_time self) !! sid = Some session <->
   active_sessions self !! sid = Some session
   /\ status session <> "ended"
   /\ current_time - last_heartbeat session <= 300 * 1000000)
  /\ ml_model (cleanup_expired_sessions current_time self) = ml_model self
  /\ security_alerts (cleanup_expired_sessions current_time self) = security_alerts self
  /\ error_log (cleanup_expired_sessions current_time self) = error_log self.
Proof.
  split; [|done].
  rewrite cleanup_expired_sessions_lookup, <- is_expired_false.
  destruct (active_sessions self !! sid) as [session'|]; [|by split; [|intros []]].
  destruct (is_expired current_time session') eqn:Hexp.
  - split; [done|]. intros [[= ->] Hf]. congruence.
  - split; [by intros [= <-] | by intros []].
Qed.

Lemma is_expired_mono (earlier later : Z) (session : Session) :
  earlier <= later ->
  is_expired earlier session = true -> is_expired later session = true.
Proof.
  intros Hle Hexp. destruct (is_expired later session) eqn:Hlater; [done|].
  apply is_expired_false in Hlater as [Hactive Hfresh].
  assert (is_expired earlier session = false) by (apply is_expired_false; split; [done | lia]).
  congruence.
Qed.

(** X2. Sweeps compose: a sweep followed by a sweep at the same or a
    later clock reading leaves what the later sweep alone leaves; in
    particular a sweep is idempotent. *)
Theorem reaper_sweeps_compose (earlier later : Z) (self : SessionMonitor) :
  earlier <= later ->
  cleanup_expired_sessions later (cleanup_expired_sessions earlier self)
  = cleanup_expired_sessions later self.
Proof.
  intros Hle.
  assert (active_sessions (cleanup_expired_sessions later
                             (cleanup_expired_sessions earlier self))
          = active_sessions (cleanup_expired_sessions later self)) as Heq.
  { apply map_eq. intros sid. rewrite !cleanup_expired_sessions_lookup.
    destruct (active_sessions self !! sid) as [session|]; [|done].
    destruct (is_expired earlier session) eqn:He; [|done].
    by rewrite (is_expired_mono earlier later session Hle He). }
  unfold cleanup_expired_sessions in *. simpl in *. by rewrite Heq.
Qed.

Lemma reaper_sweeps_compose_witness :
  cleanup_expired_sessions 400000000 (cleanup_expired_sessions 2000000 ended_monitor)
  = cleanup_expired_sessions 400000000 ended_monitor.
Proof. apply (reaper_sweeps_compose 2000000 400000000 ended_monitor). lia. Defined.

(** ** The risk computation *)

(** X3. [_calculate_ml_risk_score] never raises and returns a score
    between 0 and 1. With a model that is true and gives the margin
    [score], it is the double [1 - (score + 0.5)] clamped: 0 when that
    double is at most 0 or minus infinity, 1 when it is at least 1, plus
    infinity or NaN, and the double itself otherwise; nothing is logged.
    When the truth test of the model or its [decision_function] raises,
    the score is 0 and the exception is logged; without a model, or with
    a model that is false, the score is 0 and nothing is logged. *)
Theorem risk_score_is_clamped_margin
    (event : SessionEvent.t) (session : Session) (self : SessionMonitor) :
  exists risk records,
    _calculate_ml_risk_score event session self = (Ok risk, logged records self)
    /\ (0 <= risk <= 1)%Q
    /\ match ml_model self with
       | Some model =>
           match model_bool model with
           | Ok true =>
               match decision_function model (features event session) with
               | Ok score =>
                   records = []
                   /\ match float_view (1 - (score + 0.5))%float with
                      | Finite x =>
                          ((x <= 0)%Q -> risk = 0%Q)
                          /\ ((1 <= x)%Q -> risk = 1%Q)
                          /\ ((0 < x < 1)%Q -> risk = x)
                      | Infinite negative => risk = if negative then 0%Q else 1%Q
                      | NaN => risk = 1%Q
                      end
               | Raise e => records = [ErrorCalculatingRiskScore e] /\ risk = 0%Q
               end
           | Ok false => records = [] /\ risk = 0%Q
           | Raise e => records = [ErrorCalculatingRiskScore e] /\ risk = 0%Q
           end
       | None => records = [] /\ risk = 0%Q
       end.
Proof.
  rewrite _calculate_ml_risk_score_spec. unfold model_truth, model_score.
  destruct (ml_model self) as [model|];
    [|exists 0%Q, []; rewrite logged_nil; repeat split; done].
  destruct (model_bool model) as [[]|e];
    [|exists 0%Q, []; rewrite logged_nil; repeat split; done
     |eexists 0%Q, [_]; repeat split; done].
  destruct (decision_function model (features event session)) as [score|e];
    [|eexists 0%Q, [_]; repeat split; done].
  eexists _, []. rewrite logged_nil. split; [done|]. split; [apply clamp_range|].
  split; [done|].
  unfold clamp, float_max, float_min.
  destruct (float_view (1 - (score + 0.5))%float) as [x|[]|]; simpl; try reflexivity.
  destruct (Qlt_bool x 1) eqn:E1; simpl.
  - apply Qlt_bool_iff in E1. destruct (Qlt_bool 0 x) eqn:E2.
    + apply Qlt_bool_iff in E2. repeat split; intros; try lra; done.
    + apply not_true_iff_false in E2. rewrite Qlt_bool_iff in E2.
      repeat split; intros; try lra; done.
  - apply not_true_iff_false in E1. rewrite Qlt_bool_iff in E1.
    repeat split; intros; try lra; done.
Qed.

(** The rounding of the score matters: for the margin [-0.2] the double
    [1 - (-0.2 + 0.5)] is the double of the literal [0.7], which does not
    exceed the threshold, although the real number it stands for does. *)
Lemma borderline_margin_is_not_flagged :
  (_calculate_ml_risk_score heartbeat_event flagged_session
     (new_monitor (Some borderline_model))).1 = Ok SUSPICIOUS_SCORE_THRESHOLD
  /\ Qlt_bool SUSPICIOUS_SCORE_THRESHOLD SUSPICIOUS_SCORE_THRESHOLD = false
  /\ (7 # 10 < 1 - ((- (3602879701896397 # 18014398509481984)) + (1 # 2)))%Q.
Proof. repeat split; vm_compute; reflexivity. Qed.

(** ** The analysis and the pipeline, exactly *)

(** The entry that processing an event leaves for its session: the
    entry of the state update with a new risk score, which is between 0
    and 1 if the old one was. *)
Lemma process_event_entry (clk : Clock) (event_data : EventData.t)
    (self : SessionMonitor) (event : SessionEvent.t) (sessions' : gmap string Session)
    (session : Session) :
  (create_event clk event_data self).1 = Ok event ->
  update_session_state event self =
    (Ok tt, mkMonitor (ml_model self) sessions' (security_alerts self) (error_log self)) ->
  sessions' !! SessionEvent.session_id event = Some session ->
  exists risk,
    active_sessions (process_event clk event_data self).2 !! SessionEvent.session_id event
    = Some (set_risk_score risk session)
    /\ ((0 <= risk_score session <= 1)%Q -> (0 <= risk <= 1)%Q).
Proof.
  intros Hc Hup Hs.
  destruct (process_event_known_cases clk event_data self event sessions' session
              Hc Hup Hs)
    as [(e & -> & _) | (checked & truth & risk & records & extra & _ & _ & -> & _ & _ & Hb)].
  - simpl. exists (risk_score session). by rewrite set_risk_score_same.
  - simpl. rewrite lookup_insert_eq. eexists. split; [reflexivity|].
    intros Hold. by apply final_risk_bounds, Hb.
Qed.

(** Processing an event appends to the stored alerts and to the log and
    never replaces the model. *)
Lemma process_event_appends (clk : Clock) (event_data : EventData.t)
    (self : SessionMonitor) :
  exists alerts records,
    security_alerts (process_event clk event_data self).2 = security_alerts self ++ alerts
    /\ error_log (process_event clk event_data self).2 = error_log self ++ records
    /\ ml_model (process_event clk event_data self).2 = ml_model self.
Proof.
  destruct (create_event clk event_data self).1 as [event|e] eqn:Hc.
  - destruct (update_session_state_spec event self) as (sessions' & Hup & _ & _).
    destruct (sessions' !! SessionEvent.session_id event) as [session|] eqn:Hs.
    + destruct (process_event_known_cases clk event_data self event sessions' session
                  Hc Hup Hs)
        as [(e & -> & _) | (checked & truth & risk & records & extra & _ & _ & -> & _)].
      * exists [], [ErrorProcessingEvent e]. by rewrite app_nil_r.
      * by eexists _, _.
    + rewrite (process_event_created _ _ _ _ Hc).
      unfold try_except, mbind, M_bind. rewrite Hup.
      rewrite analyze_security_unknown by done. exists [], []. by rewrite !app_nil_r.
  - rewrite (process_event_rejected _ _ _ _ Hc).
    exists [], [ErrorProcessingEvent e]. by rewrite app_nil_r.
Qed.

(** ** Invariants of the session table *)

(** The state update keeps the invariant of the entry it writes. *)
Lemma update_session_state_invariant (event : SessionEvent.t) (self : SessionMonitor)
    (sessions' : gmap string Session) (session : Session) :
  table_invariant self ->
  update_session_state event self =
    (Ok tt, mkMonitor (ml_model self) sessions' (security_alerts self) (error_log self)) ->
  sessions' !! SessionEvent.session_id event = Some session ->
  session_invariant session.
Proof.
  intros Hinv Hup Hs.
  destruct (update_session_state_spec event self) as (sessions'' & Hup' & _ & Hnew).
  rewrite Hup in Hup'. injection Hup' as <-.
  destruct (active_sessions self !! SessionEvent.session_id event) as [old|] eqn:Hold.
  - destruct (Hinv _ _ Hold) as (Hrisk & Hstatus & [Hcount Hlast]).
    unfold session_invariant, risk_in_range, status_known, counters_consistent in *.
    destruct (SessionEvent.event_type event); rewrite Hs in Hnew;
      injection Hnew as ->; simpl;
      repeat split; try done; try lia; try (by right); try (by left);
      try (intros; lia); try apply Hlast; try (intros; by apply Hlast); try lra.
  - unfold session_invariant, risk_in_range, status_known, counters_consistent.
    destruct (SessionEvent.event_type event);
      try (rewrite Hnew, Hold in Hs; discriminate);
      rewrite Hs in Hnew; injection Hnew as ->; simpl;
      repeat split; try done; try lia; try (by left); try lra.
Qed.

(** Processing one event keeps the invariant of the table. *)
Lemma process_event_invariant (clk : Clock) (event_data : EventData.t)
    (self : SessionMonitor) :
  table_invariant self -> table_invariant (process_event clk event_data self).2.
Proof.
  intros Hinv sid session Hafter.
  destruct (decide (EventData.session_id event_data = Some sid)) as [Hsid|Hne];
    [|rewrite process_event_lookup_other in Hafter by done; by apply (Hinv sid)].
  destruct (create_event clk event_data self).1 as [event|e] eqn:Hc;
    [|rewrite (process_event_rejected _ _ _ _ Hc) in Hafter; by apply (Hinv sid)].
  assert (SessionEvent.session_id event = sid) as Heq.
  { apply create_event_Ok in Hc as (_ & Hsid' & _). congruence. }
  destruct (update_session_state_spec event self) as (sessions' & Hup & _ & _).
  destruct (sessions' !! SessionEvent.session_id event) as [session1|] eqn:Hs.
  - pose proof (update_session_state_invariant event self sessions' session1 Hinv Hup Hs)
      as (Hrisk & Hstatus & Hcount).
    destruct (process_event_entry clk event_data self event sessions' session1 Hc Hup Hs)
      as (risk & Hentry & Hb).
    rewrite Heq, Hafter in Hentry. injection Hentry as ->.
    split; [by apply Hb | by split].
  - rewrite (process_event_created _ _ _ _ Hc) in Hafter.
    unfold try_except, mbind, M_bind in Hafter. rewrite Hup in Hafter.
    rewrite analyze_security_unknown in Hafter by done. simpl in Hafter. congruence.
Qed.

(** A run keeps the invariant of the table. *)
Lemma process_events_invariant (inputs : list (Clock * EventData.t))
    (self : SessionMonitor) :
  table_invariant self -> table_invariant (process_events inputs self).
Proof.
  revert self. induction inputs as [|[clk event_data] rest IH]; intros self Hinv; simpl.
  - done.
  - by apply IH, process_event_invariant.
Qed.

Lemma new_monitor_invariant (model : option Model) :
  table_invariant (new_monitor model).
Proof. intros sid session H. simpl in H. by rewrite lookup_empty in H. Qed.

(** X4. In every state that a run of the pipeline reaches from a new
    monitor, with any model and any clock readings, the risk score of
    every session is between 0 and 1. *)
Theorem risk_score_stays_in_range
    (model : option Model) (inputs : list (Clock * EventData.t))
    (sid : string) (session : Session) :
  active_sessions (process_events inputs (new_monitor model)) !! sid = Some session ->
  (0 <= risk_score session <= 1)%Q.
Proof.
  intros Hs.
  by destruct (process_events_invariant inputs _ (new_monitor_invariant model) sid session Hs)
    as (Hrisk & _).
Qed.

Lemma risk_score_stays_in_range_witness :
  (0 <= risk_score flagged_session <= 1)%Q.
Proof.
  apply (risk_score_stays_in_range (Some raising_model) flagged_history "s").
  vm_compute. reflexivity.
Defined.

(** X5. In every state that a run of the pipeline reaches from a new
    monitor, the status of every session is ["active"] or ["ended"]. *)
Theorem status_is_active_or_ended
    (model : option Model) (inputs : list (Clock * EventData.t))
    (sid : string) (session : Session) :
  active_sessions (process_events inputs (new_monitor model)) !! sid = Some session ->
  status session = "active" \/ status session = "ended".
Proof.
  intros Hs.
  by destruct (process_events_invariant inputs _ (new_monitor_invariant model) sid session Hs)
    as (_ & Hstatus & _).
Qed.

Lemma status_is_active_or_ended_witness :
  status (mkSession "u" 0 0 "ended" 0 2 0 None) = "active"
  \/ status (mkSession "u" 0 0 "ended" 0 2 0 None) = "ended".
Proof.
  apply (status_is_active_or_ended None
           [(clock_at 0, event_of "u" "s" "session_start" ∅);
            (clock_at 1, event_of "u" "s" "session_end" ∅)] "s").
  reflexivity.
Defined.

(** X6. In every state that a run of the pipeline reaches from a new
    monitor, every session has counted at least its start event, has
    fewer tab switches than events, and has a [last_tab_switch] exactly
    when it has counted a tab switch. *)
Theorem counters_stay_consistent
    (model : option Model) (inputs : list (Clock * EventData.t))
    (sid : string) (session : Session) :
  active_sessions (process_events inputs (new_monitor model)) !! sid = Some session ->
  1 <= event_count session
  /\ 0 <= tab_switches session < event_count session
  /\ (last_tab_switch session = None <-> tab_switches session = 0).
Proof.
  intros Hs.
  destruct (process_events_invariant inputs _ (new_monitor_invariant model) sid session Hs)
    as (_ & _ & Hcount & Hlast).
  split; [lia | by split].
Qed.

Lemma counters_stay_consistent_witness :
  1 <= event_count (mkSession "u" 0 95000000 "active" 0 5 3 (Some 10000000))
  /\ 0 <= tab_switches (mkSession "u" 0 95000000 "active" 0 5 3 (Some 10000000))
       < event_count (mkSession "u" 0 95000000 "active" 0 5 3 (Some 10000000))
  /\ (last_tab_switch (mkSession "u" 0 95000000 "active" 0 5 3 (Some 10000000)) = None
      <-> tab_switches (mkSession "u" 0 95000000 "active" 0 5 3 (Some 10000000)) = 0).
Proof.
  apply (counters_stay_consistent None
           [ (clock_at 0, event_of "u" "s" "session_start" ∅);
             (clock_at 0, event_of "u" "s" "tab_switch" ∅);
             (clock_at 5, event_of "u" "s" "tab_switch" ∅);
             (clock_at 10, event_of "u" "s" "tab_switch" ∅);
             (clock_at 95, event_of "u" "s" "heartbeat" ∅) ] "s").
  reflexivity.
Defined.

(** ** Runs: isolation of sessions and growth of the stores *)

(** X7. Sessions are isolated from each other: a run in which no request
    names the session [sid] leaves the entry of [sid], present or not,
    as it was, whatever the requests do to other sessions and whether
    they are accepted or rejected. *)
Theorem other_sessions_are_untouched
    (inputs : list (Clock * EventData.t)) (self : SessionMonitor) (sid : string) :
  Forall (fun input => EventData.session_id input.2 <> Some sid) inputs ->
  active_sessions (process_events inputs self) !! sid = active_sessions self !! sid.
Proof.
  revert self. induction inputs as [|[clk event_data] rest IH]; intros self Hall; simpl.
  - done.
  - apply Forall_cons in Hall as [Hne Hrest]. simpl in Hne.
    rewrite IH by done. by apply process_event_lookup_other.
Qed.

Lemma other_sessions_are_untouched_witness :
  active_sessions (process_events flagged_history ended_monitor) !! "t"
  = active_sessions ended_monitor !! "t".
Proof.
  apply (other_sessions_are_untouched flagged_history ended_monitor "t").
  repeat constructor; discriminate.
Defined.

(** X8. The pipeline only ever appends to what it has stored: after any
    run the alerts handed to [store_alert] before it and the records
    logged before it are still there, in order, at the front, and the
    model is the one the run started with. *)
Theorem stores_only_grow (inputs : list (Clock * EventData.t)) (self : SessionMonitor) :
  security_alerts self `prefix_of` security_alerts (process_events inputs self)
  /\ error_log self `prefix_of` error_log (process_events inputs self)
  /\ ml_model (process_events inputs self) = ml_model self.
Proof.
  revert self. induction inputs as [|[clk event_data] rest IH]; intros self; simpl.
  - done.
  - destruct (IH (process_event clk event_data self).2) as (Ha & Hl & Hm).
    destruct (process_event_appends clk event_data self) as (alerts & records & Ha' & Hl' & Hm').
    rewrite Ha' in Ha. rewrite Hl' in Hl. rewrite Hm' in Hm.
    split; [|split; [|done]].
    + etrans; [|exact Ha]. by apply prefix_app_r.
    + etrans; [|exact Hl]. by apply prefix_app_r.
Qed.

(** ** The alerts of one event *)

(** The alerts of a finished analysis, rule by rule. *)
Lemma rule_alerts_shape (clk : Clock) (event : SessionEvent.t) (session : Session)
    (checked extra : list SecurityAlert.t) (risk : Q) :
  check_inactivity clk event (check_tab_switches clk event session []) = Ok checked ->
  extra = [] \/
  extra = [_create_alert clk (length (check_heartbeat clk event session checked))
             event HIGH (MLFlagged risk)] ->
  created_in_turn clk event (check_heartbeat clk event session checked ++ extra)
  /\ exists level,
       (level = HIGH \/ level = MEDIUM)
       /\ (SecurityAlert.security_level <$>
             (check_heartbeat clk event session checked ++ extra))
          `sublist_of` [level; CRITICAL; HIGH].
Proof.
  intros Hin Hextra.
  assert (forall alerts : list (SecurityLevel * Description),
            (length alerts <= 3)%nat ->
            created_in_turn clk event
              (imap (fun k a => _create_alert clk k event a.1 a.2) alerts)) as Hturn.
  { intros alerts _ k alert Hk. rewrite list_lookup_imap in Hk.
    destruct (alerts !! k) as [a|]; simpl in Hk; [|discriminate].
    injection Hk as <-. by eexists _, _. }
  unfold check_inactivity, check_tab_switches in Hin. unfold check_heartbeat in *.
  destruct (decide (SessionEvent.event_type event = INACTIVITY)) as [Hty|Hty].
  - rewrite (decide_False (P := SessionEvent.event_type event = TAB_SWITCH)) in Hin
      by congruence.
    destruct (py_gt _ _) as [[]|]; try discriminate; injection Hin as <-; simpl;
      destruct (Qlt_bool _ _); destruct Hextra as [-> | ->]; simpl;
      (split;
       [first [ apply (Hturn []); simpl; lia
              | apply (Hturn [(_, _)]); simpl; lia
              | apply (Hturn [(_, _); (_, _)]); simpl; lia
              | apply (Hturn [(_, _); (_, _); (_, _)]); simpl; lia ]|]);
      exists MEDIUM; (split; [by right|]);
      eauto 10 using sublist_nil, sublist_skip, sublist_cons.
  - destruct (decide (SessionEvent.event_type event = TAB_SWITCH));
      [destruct (last_tab_switch session); [destruct (_ && _)|]|];
      injection Hin as <-; simpl;
      destruct (Qlt_bool _ _); destruct Hextra as [-> | ->]; simpl;
      (split;
       [first [ apply (Hturn []); simpl; lia
              | apply (Hturn [(_, _)]); simpl; lia
              | apply (Hturn [(_, _); (_, _)]); simpl; lia
              | apply (Hturn [(_, _); (_, _); (_, _)]); simpl; lia ]|]);
      exists HIGH; (split; [by left|]);
      eauto 10 using sublist_nil, sublist_skip, sublist_cons.
Qed.

(** The alerts of an event are empty or those of a finished analysis. *)
Lemma alerts_of_shape (clk : Clock) (event_data : EventData.t) (self : SessionMonitor) :
  alerts_of clk event_data self = []
  \/ exists event session checked extra risk,
       (create_event clk event_data self).1 = Ok event
       /\ check_inactivity clk event (check_tab_switches clk event session []) = Ok checked
       /\ (extra = [] \/
           extra = [_create_alert clk (length (check_heartbeat clk event session checked))
                      event HIGH (MLFlagged risk)])
       /\ alerts_of clk event_data self = check_heartbeat clk event session checked ++ extra.
Proof.
  destruct (create_event clk event_data self).1 as [event|e] eqn:Hc.
  - destruct (update_session_state_spec event self) as (sessions' & Hup & _ & _).
    destruct (sessions' !! SessionEvent.session_id event) as [session|] eqn:Hs.
    + destruct (process_event_known_cases clk event_data self event sessions' session
                  Hc Hup Hs)
        as [(e & Hp & _)
           | (checked & truth & risk & records & extra & Hin & _ & Hp & Hextra & _)].
      * left. apply alerts_of_app. by rewrite Hp, app_nil_r.
      * right. exists event, session, checked, extra, risk.
        repeat split; try done. apply alerts_of_app. by rewrite Hp.
    + left. apply alerts_of_app. rewrite (process_event_created _ _ _ _ Hc).
      unfold try_except, mbind, M_bind. rewrite Hup.
      rewrite analyze_security_unknown by done. simpl. by rewrite app_nil_r.
  - left. apply alerts_of_app. rewrite (process_event_rejected _ _ _ _ Hc).
    simpl. by rewrite app_nil_r.
Qed.

(** X9. The alert stored in position [k] for a request (counting from
    0) carries the request's user id, session id, event type and metadata
    and the ingestion timestamp, is unresolved, and has the identifier
    ["alert_<second>_<session id>"] whose second is the reading of
    [time.time()] in its own creation, the one that follows [k] earlier
    creations for the same request. *)
Theorem alerts_carry_their_event
    (clk : Clock) (event_data : EventData.t) (self : SessionMonitor)
    (k : nat) (alert : SecurityAlert.t) :
  alerts_of clk event_data self !! k = Some alert ->
  EventData.user_id event_data = Some (SecurityAlert.user_id alert)
  /\ EventData.session_id event_data = Some (SecurityAlert.session_id alert)
  /\ EventData.event_type event_data
     = Some (EventType_value (SecurityAlert.event_type alert))
  /\ SecurityAlert.timestamp alert = utcnow_event clk
  /\ SecurityAlert.metadata alert = default ∅ (EventData.metadata event_data)
  /\ SecurityAlert.is_resolved alert = false
  /\ SecurityAlert.alert_id alert
     = "alert_" +:+ pretty (time_time clk k) +:+ "_" +:+ SecurityAlert.session_id alert.
Proof.
  intros Hk.
  destruct (alerts_of_shape clk event_data self)
    as [Hnil | (event & session & checked & extra & risk & Hc & Hcheck & Hextra & Heq)].
  - by rewrite Hnil in Hk.
  - destruct (rule_alerts_shape clk event session checked extra risk Hcheck Hextra)
      as [Hturn _].
    rewrite Heq in Hk. destruct (Hturn k alert Hk) as (level & description & ->).
    apply create_event_Ok in Hc as (Hu & Hs & Hty & Hts & Hmd & _).
    simpl. by repeat split.
Qed.

Lemma alerts_carry_their_event_witness :
  EventData.user_id (event_of "u" "s" "inactivity" {["duration" := PyNum (31 # 1)]})
    = Some (SecurityAlert.user_id second_alert)
  /\ EventData.session_id (event_of "u" "s" "inactivity" {["duration" := PyNum (31 # 1)]})
    = Some (SecurityAlert.session_id second_alert)
  /\ EventData.event_type (event_of "u" "s" "inactivity" {["duration" := PyNum (31 # 1)]})
     = Some (EventType_value (SecurityAlert.event_type second_alert))
  /\ SecurityAlert.timestamp second_alert = utcnow_event ticking_clock
  /\ SecurityAlert.metadata second_alert
     = default ∅ (EventData.metadata
                    (event_of "u" "s" "inactivity" {["duration" := PyNum (31 # 1)]}))
  /\ SecurityAlert.is_resolved second_alert = false
  /\ SecurityAlert.alert_id second_alert
     = "alert_" +:+ pretty (time_time ticking_clock 1) +:+ "_"
       +:+ SecurityAlert.session_id second_alert.
Proof.
  apply (alerts_carry_their_event ticking_clock
           (event_of "u" "s" "inactivity" {["duration" := PyNum (31 # 1)]})
           started_monitor 1 second_alert).
  vm_compute. reflexivity.
Defined.

(** X10. One event stores at most three alerts, in the order of the
    rules: first the alert of the tab-switch rule (high) or of the
    inactivity rule (medium), then the heartbeat alert (critical), then
    the alert of the scoring rule (high). *)
Theorem alerts_follow_the_rules
    (clk : Clock) (event_data : EventData.t) (self : SessionMonitor) :
  exists level,
    (level = HIGH \/ level = MEDIUM)
    /\ (SecurityAlert.security_level <$> alerts_of clk event_data self)
       `sublist_of` [level; CRITICAL; HIGH].
Proof.
  destruct (alerts_of_shape clk event_data self)
    as [-> | (event & session & checked & extra & risk & Hc & Hcheck & Hextra & ->)].
  - exists HIGH. split; [by left|]. apply sublist_nil_l.
  - by destruct (rule_alerts_shape clk event session checked extra risk Hcheck Hextra)
      as [_ Hlevels].
Qed.

(** ** The inactivity rule and the heartbeat rule on accepted events *)

(** The event that [create_event] makes of a request with the three
    required keys. *)
Lemma create_event_fields (clk : Clock) (event_data : EventData.t) (self : SessionMonitor)
    (uid sid : string) (event_type : EventType) :
  EventData.user_id event_data = Some uid ->
  EventData.session_id event_data = Some sid ->
  EventData.event_type event_data = Some (EventType_value event_type) ->
  (create_event clk event_data self).1 =
  Ok (SessionEvent.mk uid sid event_type (utcnow_event clk)
        (default ∅ (EventData.metadata event_data))
        (EventData.device_fingerprint event_data)
        (EventData.ip_address event_data) (EventData.user_agent event_data)).
Proof. intros Hu Hs Hty. apply create_event_Ok. by repeat split. Qed.

(** X11. For an inactivity event of a known session whose [duration] is
    a number (0 when the key is absent), and a monitor whose model has a
    truth value, so that the test [if self.ml_model:] of the analysis
    does not raise: exactly one medium alert is stored, naming that
    duration, when the duration exceeds 30 seconds, and no medium alert
    when it does not. *)
Theorem inactivity_rule_fires_above_threshold
    (clk : Clock) (event_data : EventData.t) (self : SessionMonitor)
    (uid sid : string) (session : Session) (duration : Q) (truth : bool) :
  EventData.user_id event_data = Some uid ->
  EventData.session_id event_data = Some sid ->
  EventData.event_type event_data = Some "inactivity" ->
  active_sessions self !! sid = Some session ->
  metadata_get (default ∅ (EventData.metadata event_data)) "duration" = PyNum duration ->
  model_truth (ml_model self) = Ok truth ->
  ((30 # 1 < duration)%Q ->
   SecurityAlert.description <$> alerts_at MEDIUM clk event_data self
   = [UserInactive (Some (PyNum duration))])
  /\ ((duration <= 30 # 1)%Q -> alerts_at MEDIUM clk event_data self = []).
Proof.
  intros Hu Hsid Hty Hs Hd Ht.
  pose proof (create_event_fields clk event_data self uid sid INACTIVITY Hu Hsid Hty) as Hc.
  set (event := SessionEvent.mk _ _ _ _ _ _ _ _) in Hc.
  destruct (update_session_state_spec event self) as (sessions' & Hup & _ & Hnew).
  simpl in Hnew. rewrite Hs in Hnew.
  pose proof (process_event_known clk event_data self event sessions' _ Hc Hup Hnew) as Hp.
  unfold check_inactivity, check_tab_switches in Hp. simpl in Hp. rewrite Hd in Hp.
  simpl in Hp.
  assert (default ∅ (EventData.metadata event_data) !! "duration" = Some (PyNum duration)
          \/ duration = 0%Q) as Hkey.
  { unfold metadata_get in Hd.
    destruct (default ∅ (EventData.metadata event_data) !! "duration");
      simpl in Hd; [left | right]; congruence. }
  unfold alerts_at, check_heartbeat in *.
  destruct (Qlt_bool INACTIVITY_THRESHOLD duration) eqn:Hq; rewrite Ht in Hp;
    destruct Hp as (risk & records & extra & Hp & Hextra & _); cbv zeta in Hp;
    (erewrite alerts_of_app; [|by rewrite Hp]).
  - apply Qlt_bool_iff in Hq. split; [|unfold INACTIVITY_THRESHOLD in Hq; intros; lra].
    intros _. destruct Hkey as [Hkey | ->]; [|unfold INACTIVITY_THRESHOLD in Hq; lra].
    rewrite Hkey. destruct (Qlt_bool _ _); destruct Hextra as [-> | ->]; reflexivity.
  - apply not_true_iff_false in Hq. rewrite Qlt_bool_iff in Hq.
    split; [unfold INACTIVITY_THRESHOLD in Hq; intros; lra|].
    intros _. destruct (Qlt_bool _ _); destruct Hextra as [-> | ->]; reflexivity.
Qed.

Lemma inactivity_rule_fires_above_threshold_witness :
  ((30 # 1 < 31 # 1)%Q ->
   SecurityAlert.description <$>
     alerts_at MEDIUM (clock_at 11)
       (event_of "u" "s" "inactivity" {["duration" := PyNum (31 # 1)]}) started_monitor
   = [UserInactive (Some (PyNum (31 # 1)))])
  /\ ((31 # 1 <= 30 # 1)%Q ->
      alerts_at MEDIUM (clock_at 11)
        (event_of "u" "s" "inactivity" {["duration" := PyNum (31 # 1)]}) started_monitor
      = []).
Proof.
  apply (inactivity_rule_fires_above_threshold _ _ _ "u" "s"
           (mkSession "u" 0 0 "active" 0 1 0 None) _ false); reflexivity.
Defined.

(** X12. For an accepted event of a known session that is neither a
    heartbeat nor a session start, whose [duration] is a number if it is
    an inactivity event, and a monitor whose model has a truth value, so
    that the test [if self.ml_model:] of the analysis does not raise: the
    heartbeat rule stores exactly one critical alert, naming the elapsed
    seconds, when the analysis reads its clock more than 10 seconds after
    the session's last heartbeat, and none otherwise: the timeout is
    reported again on every such event. *)
Theorem overdue_heartbeat_is_reported_on_every_event
    (clk : Clock) (event_data : EventData.t) (self : SessionMonitor)
    (uid sid : string) (event_type : EventType) (session : Session) (truth : bool) :
  EventData.user_id event_data = Some uid ->
  EventData.session_id event_data = Some sid ->
  EventData.event_type event_data = Some (EventType_value event_type) ->
  event_type <> HEARTBEAT ->
  event_type <> SESSION_START ->
  (event_type = INACTIVITY ->
   exists duration,
     metadata_get (default ∅ (EventData.metadata event_data)) "duration" = PyNum duration) ->
  active_sessions self !! sid = Some session ->
  model_truth (ml_model self) = Ok truth ->
  (10 * 1000000 < utcnow_analysis clk - last_heartbeat session ->
   SecurityAlert.description <$> critical_alerts clk event_data self
   = [HeartbeatTimeout (total_seconds (utcnow_analysis clk - last_heartbeat session))])
  /\ (utcnow_analysis clk - last_heartbeat session <= 10 * 1000000 ->
      critical_alerts clk event_data self = []).
Proof.
  intros Hu Hsid Hty Hnhb Hnstart Hnum Hs Ht.
  pose proof (create_event_fields clk event_data self uid sid event_type Hu Hsid Hty) as Hc.
  set (event := SessionEvent.mk _ _ _ _ _ _ _ _) in Hc.
  destruct (update_session_state_spec event self) as (sessions' & Hup & _ & Hnew).
  simpl in Hnew. rewrite Hs in Hnew.
  assert (exists session1, sessions' !! sid = Some session1
            /\ last_heartbeat session1 = last_heartbeat session) as (session1 & Hs1 & Hhb)
    by (destruct event_type; try done; eexists; (split; [exact Hnew | done])).
  assert (exists checked,
            check_inactivity clk event (check_tab_switches clk event session1 []) = Ok checked)
    as [checked Hin].
  { unfold check_inactivity. simpl. destruct (decide (event_type = INACTIVITY)) as [Hi|Hi].
    - destruct (Hnum Hi) as [duration Hd]. rewrite Hd. simpl.
      destruct (Qlt_bool _ _); by eexists.
    - by eexists. }
  rewrite (heartbeat_rule_when_analysis_completes clk event_data self event sessions'
             session1 checked truth Hc Hup Hs1 Hin Ht), Hhb.
  destruct (decide _); split; intros; try lia; done.
Qed.

Lemma overdue_heartbeat_is_reported_on_every_event_witness :
  (10 * 1000000 < utcnow_analysis (clock_at 11)
                  - last_heartbeat (mkSession "u" 0 0 "active" 0 1 0 None) ->
   SecurityAlert.description <$>
     critical_alerts (clock_at 11) (event_of "u" "s" "copy_paste" ∅) started_monitor
   = [HeartbeatTimeout
        (total_seconds (utcnow_analysis (clock_at 11)
                        - last_heartbeat (mkSession "u" 0 0 "active" 0 1 0 None)))])
  /\ (utcnow_analysis (clock_at 11)
      - last_heartbeat (mkSession "u" 0 0 "active" 0 1 0 None) <= 10 * 1000000 ->
      critical_alerts (clock_at 11) (event_of "u" "s" "copy_paste" ∅) started_monitor = []).
Proof.
  apply (overdue_heartbeat_is_reported_on_every_event _ _ _ "u" "s" COPY_PASTE _ false);
    [reflexivity | reflexivity | reflexivity | discriminate | discriminate
    | discriminate | reflexivity | reflexivity].
Defined.

(** X13. When the analysis of an inactivity event of a known session
    raises, because its [duration] is not a number, the state update
    that preceded it stays: the event is counted, the session is
    otherwise unchanged, no alert is stored, and [process_event] logs the
    [TypeError] and returns normally. *)
Theorem failed_analysis_keeps_state_update
    (clk : Clock) (event_data : EventData.t) (self : SessionMonitor)
    (uid sid : string) (session : Session) :
  EventData.user_id event_data = Some uid ->
  EventData.session_id event_data = Some sid ->
  EventData.event_type event_data = Some "inactivity" ->
  active_sessions self !! sid = Some session ->
  (forall duration,
     metadata_get (default ∅ (EventData.metadata event_data)) "duration"
     <> PyNum duration) ->
  process_event clk event_data self =
  (Ok tt, mkMonitor (ml_model self)
            (<[sid := set_event_count (event_count session + 1) session]>
               (active_sessions self))
            (security_alerts self)
            (error_log self ++ [ErrorProcessingEvent TypeError])).
Proof.
  intros Hu Hsid Hty Hs Hd.
  pose proof (create_event_fields clk event_data self uid sid INACTIVITY Hu Hsid Hty) as Hc.
  set (event := SessionEvent.mk _ _ _ _ _ _ _ _) in Hc.
  destruct (update_session_state_spec event self) as (sessions' & Hup & Hframe & Hnew).
  simpl in Hnew, Hframe. rewrite Hs in Hnew.
  assert (sessions' = <[sid := set_event_count (event_count session + 1) session]>
                        (active_sessions self)) as Heq.
  { apply map_eq. intros k. destruct (decide (k = sid)) as [->|Hne].
    - by rewrite lookup_insert_eq.
    - rewrite lookup_insert_ne by done. by apply Hframe. }
  pose proof (process_event_known clk event_data self event sessions' _ Hc Hup Hnew) as Hp.
  unfold check_inactivity in Hp. simpl in Hp.
  destruct (metadata_get _ _) as [duration| |] eqn:Hm; simpl in Hp.
  - by destruct (Hd duration).
  - by rewrite Hp, Heq.
  - by rewrite Hp, Heq.
Qed.

Lemma failed_analysis_keeps_state_update_witness :
  process_event (clock_at 11)
    (event_of "u" "s" "inactivity" {["duration" := PyStr "long"]}) started_monitor =
  (Ok tt, mkMonitor (ml_model started_monitor)
            (<["s" := set_event_count
                        (event_count (mkSession "u" 0 0 "active" 0 1 0 None) + 1)
                        (mkSession "u" 0 0 "active" 0 1 0 None)]>
               (active_sessions started_monitor))
            (security_alerts started_monitor)
            (error_log started_monitor ++ [ErrorProcessingEvent TypeError])).
Proof.
  apply (failed_analysis_keeps_state_update _ _ _ "u" "s"); try reflexivity.
  intros duration. vm_compute. discriminate.
Defined.

(** ** What the counters count *)

Lemma accepted_type_created (clk : Clock) (event_data : EventData.t) (self : SessionMonitor) :
  match accepted_type event_data with
  | Some event_type =>
      exists event, (create_event clk event_data self).1 = Ok event
                    /\ SessionEvent.event_type event = event_type
  | None => exists e, (create_event clk event_data self).1 = Raise e
  end.
Proof.
  unfold accepted_type, create_event. unfold_monad.
  destruct event_data as [[u|] [s|] [ty|] md df ip ua]; simpl; try by eexists.
  destruct (EventType_call ty); simpl; by eexists.
Qed.

(** One event of a run, seen from the session [sid]. *)
Lemma process_event_counts (clk : Clock) (event_data : EventData.t) (self : SessionMonitor)
    (sid : string) (session : Session) :
  active_sessions self !! sid = Some session ->
  accepted_for sid event_data <> Some SESSION_START ->
  exists session',
    active_sessions (process_event clk event_data self).2 !! sid = Some session'
    /\ event_count session'
       = event_count session + (if decide (is_Some (accepted_for sid event_data)) then 1 else 0)
    /\ tab_switches session'
       = tab_switches session
         + (if decide (accepted_for sid event_data = Some TAB_SWITCH) then 1 else 0)
    /\ user_id session' = user_id session
    /\ start_time session' = start_time session.
Proof.
  intros Hs Hnstart. unfold accepted_for in *.
  destruct (decide (EventData.session_id event_data = Some sid)) as [Hsid|Hne].
  - pose proof (accepted_type_created clk event_data self) as Hacc.
    destruct (accepted_type event_data) as [event_type|].
    + destruct Hacc as (event & Hc & Hty).
      assert (SessionEvent.session_id event = sid) as Heq.
      { apply create_event_Ok in Hc as (_ & Hsid' & _). congruence. }
      destruct (update_session_state_spec event self) as (sessions' & Hup & _ & Hnew).
      rewrite Heq, Hs, Hty in Hnew.
      assert (exists session1, sessions' !! SessionEvent.session_id event = Some session1
                /\ event_count session1 = event_count session + 1
                /\ tab_switches session1
                   = tab_switches session
                     + (if decide (Some event_type = Some TAB_SWITCH) then 1 else 0)
                /\ user_id session1 = user_id session
                /\ start_time session1 = start_time session)
        as (session1 & Hs1 & Hec & Hts & Hu & Hst).
      { rewrite Heq.
        destruct event_type; try done; eexists; (split; [exact Hnew|]); simpl;
          repeat split; try done; repeat case_decide; try done; lia. }
      destruct (process_event_lookup_same clk event_data self event sessions' session1
                  Hc Hup Hs1) as [risk Hp].
      rewrite Heq in Hp. eexists. split; [exact Hp|]. simpl. done.
    + destruct Hacc as [e Hc]. rewrite (process_event_rejected _ _ _ _ Hc). simpl.
      exists session. repeat split; try done; lia.
  - rewrite process_event_lookup_other by done. exists session. simpl.
    repeat split; try done; lia.
Qed.

(** X14. Over a run in which the session [sid] is known at the start
    and is not started again, [event_count] grows by the number of
    accepted requests that name the session, whatever their type and
    whether or not their analysis raises, and [tab_switches] by the
    number of accepted [tab_switch] requests among them; rejected
    requests and requests for other sessions are not counted; the user
    and the start time stay. *)
Theorem counters_count_accepted_events
    (inputs : list (Clock * EventData.t)) (self : SessionMonitor)
    (sid : string) (session : Session) :
  active_sessions self !! sid = Some session ->
  Forall (fun input => accepted_for sid input.2 <> Some SESSION_START) inputs ->
  exists session',
    active_sessions (process_events inputs self) !! sid = Some session'
    /\ event_count session'
       = event_count session
         + count_inputs (fun event_data => is_Some (accepted_for sid event_data)) inputs
    /\ tab_switches session'
       = tab_switches session
         + count_inputs (fun event_data => accepted_for sid event_data = Some TAB_SWITCH) inputs
    /\ user_id session' = user_id session
    /\ start_time session' = start_time session.
Proof.
  revert self session.
  induction inputs as [|[clk event_data] rest IH]; intros self session Hs Hall; simpl.
  - exists session. unfold count_inputs. simpl. repeat split; try done; lia.
  - apply Forall_cons in Hall as [Hhead Hrest]. simpl in Hhead.
    destruct (process_event_counts clk event_data self sid session Hs Hhead)
      as (session1 & Hs1 & Hec1 & Hts1 & Hu1 & Hst1).
    destruct (IH _ session1 Hs1 Hrest) as (session' & Hs' & Hec & Hts & Hu & Hst).
    exists session'. split; [done|]. unfold count_inputs in *.
    rewrite !filter_cons. simpl.
    repeat split; try congruence.
    + rewrite Hec, Hec1. destruct (decide (is_Some _)); simpl; lia.
    + rewrite Hts, Hts1. destruct (decide (_ = Some TAB_SWITCH)); simpl; lia.
Qed.

Lemma counters_count_accepted_events_witness :
  exists session',
    active_sessions (process_events mixed_run started_monitor) !! "s" = Some session'
    /\ event_count session'
       = event_count (mkSession "u" 0 0 "active" 0 1 0 None)
         + count_inputs (fun event_data => is_Some (accepted_for "s" event_data)) mixed_run
    /\ tab_switches session'
       = tab_switches (mkSession "u" 0 0 "active" 0 1 0 None)
         + count_inputs (fun event_data => accepted_for "s" event_data = Some TAB_SWITCH)
             mixed_run
    /\ user_id session' = user_id (mkSession "u" 0 0 "active" 0 1 0 None)
    /\ start_time session' = start_time (mkSession "u" 0 0 "active" 0 1 0 None).
Proof.
  apply (counters_count_accepted_events mixed_run started_monitor "s");
    [reflexivity | repeat constructor; vm_compute; discriminate].
Defined.

(** ** Event types *)

(** X15. [EventType(value)] inverts [.value]: it returns the member for
    each of the ten values, returns only a member whose value is the
    given string, and raises [ValueError] with the given string for
    every other string; distinct members have distinct values. *)
Theorem EventType_call_inverts_value :
  (forall event_type, EventType_call (EventType_value event_type) = Ok event_type)
  /\ (forall value event_type,
        EventType_call value = Ok event_type -> EventType_value event_type = value)
  /\ (forall value,
        value ∉ (EventType_value <$> EventType_members) ->
        EventType_call value = Raise (ValueError value))
  /\ (forall t1 t2, EventType_value t1 = EventType_value t2 -> t1 = t2).
Proof.
  split; [apply EventType_call_value|].
  split; [intros value t Ht; by apply EventType_call_Ok|].
  split.
  - intros value Hnot. apply EventType_call_Raise. split; [done|].
    intros t Ht. apply Hnot. rewrite <- Ht. apply list_elem_of_fmap.
    exists t. split; [done|]. destruct t; unfold EventType_members; set_solver.
  - intros t1 t2 Heq. pose proof (EventType_call_value t1) as H1.
    rewrite Heq, EventType_call_value in H1. congruence.
Qed.

(** ** The status route *)

(** X16. After a sweep of the reaper the status route never reports an
    ended session or one whose last heartbeat is more than 300 seconds
    before the sweep: what it returns for a session is what it returned
    before the sweep, for a session that is not ended and has a recent
    heartbeat; every other session is answered with 404. *)
Theorem status_route_after_sweep
    (current_time : Z) (self : SessionMonitor) (sid : string)
    (alerts : list SecurityAlert.t) :
  match get_session_status sid alerts (cleanup_expired_sessions current_time self) with
  | Returns answer =>
      get_session_status sid alerts self = Returns answer
      /\ SessionStatus.status answer <> "ended"
      /\ current_time - SessionStatus.last_heartbeat answer <= 300 * 1000000
  | RaisesHTTPException status_code detail =>
      status_code = 404 /\ detail = "Session not found"
      /\ match active_sessions self !! sid with
         | Some session =>
             status session = "ended"
             \/ 300 * 1000000 < current_time - last_heartbeat session
         | None => True
         end
  end.
Proof.
  unfold get_session_status. rewrite cleanup_expired_sessions_lookup.
  destruct (active_sessions self !! sid) as [session|]; [|done].
  destruct (is_expired current_time session) eqn:Hexp.
  - split; [done|]. split; [done|].
    destruct (decide (status session = "ended")) as [|Hactive]; [by left|]. right.
    destruct (decide (300 * 1000000 < current_time - last_heartbeat session)); [done|].
    assert (is_expired current_time session = false)
      by (apply is_expired_false; split; [done | lia]).
    congruence.
  - apply is_expired_false in Hexp as [Hactive Hfresh]. by simpl.
Qed.

(** X17. An accepted [session_end] request ends the session for good
    once the reaper has run: after the request is processed and the
    table is swept, at any clock reading, the status route answers 404
    for its session, whether or not the session was known. *)
Theorem ended_session_is_gone_after_sweep
    (clk : Clock) (event_data : EventData.t) (self : SessionMonitor)
    (uid sid : string) (current_time : Z) (alerts : list SecurityAlert.t) :
  EventData.user_id event_data = Some uid ->
  EventData.session_id event_data = Some sid ->
  EventData.event_type event_data = Some "session_end" ->
  get_session_status sid alerts
    (cleanup_expired_sessions current_time (process_event clk event_data self).2)
  = RaisesHTTPException 404 "Session not found".
Proof.
  intros Hu Hsid Hty.
  pose proof (create_event_fields clk event_data self uid sid SESSION_END Hu Hsid Hty) as Hc.
  set (event := SessionEvent.mk _ _ _ _ _ _ _ _) in Hc.
  unfold get_session_status. rewrite cleanup_expired_sessions_lookup.
  destruct (active_sessions self !! sid) as [session|] eqn:Hs.
  - destruct (update_session_state_spec event self) as (sessions' & Hup & _ & Hnew).
    simpl in Hnew. rewrite Hs in Hnew.
    destruct (process_event_lookup_same clk event_data self event sessions' _ Hc Hup Hnew)
      as [risk Hp].
    simpl in Hp. by rewrite Hp.
  - rewrite (process_event_unknown clk event_data self event Hc) by done.
    simpl. by rewrite Hs.
Qed.

Lemma ended_session_is_gone_after_sweep_witness :
  get_session_status "s" []
    (cleanup_expired_sessions 2000000
       (process_event (clock_at 1) (event_of "u" "s" "session_end" ∅) started_monitor).2)
  = RaisesHTTPException 404 "Session not found".
Proof.
  apply (ended_session_is_gone_after_sweep _ _ _ "u" "s"); reflexivity.
Defined.

(** ** The scoring rule *)

(** X18. When the model of the monitor is true and the analysis of an
    event of a known session passes the inactivity rule, the analysis
    returns normally, the score that [_calculate_ml_risk_score] returns
    is stored as the session's risk score whether or not an alert fires
    (raised to the risk floor, the double 0.8, when one does), and the
    scoring rule adds its high alert, after those of the other rules,
    exactly when the score exceeds the threshold, the double 0.7. *)
Theorem scoring_rule_stores_and_flags
    (clk : Clock) (event : SessionEvent.t) (session : Session) (self : SessionMonitor)
    (model : Model) (checked : list SecurityAlert.t) :
  active_sessions self !! SessionEvent.session_id event = Some session ->
  ml_model self = Some model ->
  model_bool model = Ok true ->
  check_inactivity clk event (check_tab_switches clk event session []) = Ok checked ->
  exists risk session',
    (_calculate_ml_risk_score event session self).1 = Ok risk
    /\ (analyze_security clk event self).1 = Ok tt
    /\ active_sessions (analyze_security clk event self).2 !! SessionEvent.session_id event
       = Some session'
    /\ ((SUSPICIOUS_SCORE_THRESHOLD < risk)%Q ->
        drop (length (security_alerts self))
             (security_alerts (analyze_security clk event self).2)
        = check_heartbeat clk event session checked
          ++ [_create_alert clk (length (check_heartbeat clk event session checked))
                event HIGH (MLFlagged risk)]
        /\ risk_score session' = py_max risk RISK_FLOOR)
    /\ ((risk <= SUSPICIOUS_SCORE_THRESHOLD)%Q ->
        drop (length (security_alerts self))
             (security_alerts (analyze_security clk event self).2)
        = check_heartbeat clk event session checked
        /\ (check_heartbeat clk event session checked = [] -> risk_score session' = risk)
        /\ (check_heartbeat clk event session checked <> [] ->
            risk_score session' = py_max risk RISK_FLOOR)).
Proof.
  intros Hs Hm Hb Hin.
  destruct (_calculate_ml_risk_score_returns event session self)
    as (risk & records & Hcalc & _).
  exists risk. eexists. split; [by rewrite Hcalc|].
  rewrite (analyze_security_exact clk event session self checked risk records Hs Hin Hcalc).
  rewrite Hm. simpl. rewrite Hb. cbv zeta. simpl. split; [done|].
  rewrite lookup_insert_eq, drop_app_length. split; [reflexivity|]. simpl.
  destruct (Qlt_bool SUSPICIOUS_SCORE_THRESHOLD risk) eqn:Hq.
  - apply Qlt_bool_iff in Hq.
    split; [|intros; lra]. intros _. split; [done|].
    by destruct (check_heartbeat clk event session checked).
  - apply not_true_iff_false in Hq. rewrite Qlt_bool_iff in Hq.
    split; [intros; lra|]. intros _. split; [done|].
    destruct (check_heartbeat clk event session checked); by split.
Qed.

Lemma scoring_rule_stores_and_flags_witness :
  exists risk session',
    (_calculate_ml_risk_score heartbeat_event outlier_session outlier_monitor).1 = Ok risk
    /\ (analyze_security (clock_at 2) heartbeat_event outlier_monitor).1 = Ok tt
    /\ active_sessions (analyze_security (clock_at 2) heartbeat_event outlier_monitor).2
       !! SessionEvent.session_id heartbeat_event = Some session'
    /\ ((SUSPICIOUS_SCORE_THRESHOLD < risk)%Q ->
        drop (length (security_alerts outlier_monitor))
             (security_alerts (analyze_security (clock_at 2) heartbeat_event outlier_monitor).2)
        = check_heartbeat (clock_at 2) heartbeat_event outlier_session []
          ++ [_create_alert (clock_at 2)
                (length (check_heartbeat (clock_at 2) heartbeat_event outlier_session []))
                heartbeat_event HIGH (MLFlagged risk)]
        /\ risk_score session' = py_max risk RISK_FLOOR)
    /\ ((risk <= SUSPICIOUS_SCORE_THRESHOLD)%Q ->
        drop (length (security_alerts outlier_monitor))
             (security_alerts (analyze_security (clock_at 2) heartbeat_event outlier_monitor).2)
        = check_heartbeat (clock_at 2) heartbeat_event outlier_session []
        /\ (check_heartbeat (clock_at 2) heartbeat_event outlier_session [] = [] ->
            risk_score session' = risk)
        /\ (check_heartbeat (clock_at 2) heartbeat_event outlier_session [] <> [] ->
            risk_score session' = py_max risk RISK_FLOOR)).
Proof.
  apply (scoring_rule_stores_and_flags (clock_at 2) heartbeat_event outlier_session
           outlier_monitor outlier_model []); vm_compute; reflexivity.
Defined.

(** ** Restarting a session *)

(** The score of the risk computation depends on the monitor only
    through its model. *)
Lemma _calculate_ml_risk_score_model (event : SessionEvent.t) (session : Session)
    (self1 self2 : SessionMonitor) :
  ml_model self1 = ml_model self2 ->
  (_calculate_ml_risk_score event session self1).1
  = (_calculate_ml_risk_score event session self2).1.
Proof.
  intros Hm. rewrite !_calculate_ml_risk_score_spec, Hm.
  destruct (model_truth (ml_model self2)) as [[]|e]; try done.
  by destruct (model_score (ml_model self2) (features event session)).
Qed.

(** The entry that an accepted [session_start] leaves for its session,
    in terms of the model alone. *)
Lemma session_start_entry (clk : Clock) (event_data : EventData.t) (self : SessionMonitor)
    (uid sid : string) :
  EventData.user_id event_data = Some uid ->
  EventData.session_id event_data = Some sid ->
  EventData.event_type event_data = Some "session_start" ->
  let event := SessionEvent.mk uid sid SESSION_START (utcnow_event clk)
                 (default ∅ (EventData.metadata event_data))
                 (EventData.device_fingerprint event_data)
                 (EventData.ip_address event_data) (EventData.user_agent event_data) in
  let fresh := mkSession uid (utcnow_event clk) (utcnow_event clk) "active" 0 1 0 None in
  forall risk,
    (_calculate_ml_risk_score event fresh self).1 = Ok risk ->
    active_sessions (process_event clk event_data self).2 !! sid =
    Some (match model_truth (ml_model self) with
          | Ok true =>
              set_risk_score
                (final_risk (scored_alerts clk (Some risk) event
                               (check_heartbeat clk event fresh [])) risk) fresh
          | Ok false =>
              set_risk_score
                (final_risk (check_heartbeat clk event fresh []) (risk_score fresh)) fresh
          | Raise _ => fresh
          end).
Proof.
  intros Hu Hsid Hty event fresh risk Hrisk.
  pose proof (create_event_fields clk event_data self uid sid SESSION_START Hu Hsid Hty) as Hc.
  fold event in Hc.
  destruct (update_session_state_spec event self) as (sessions' & Hup & _ & Hnew).
  simpl in Hnew. fold fresh in Hnew.
  rewrite (process_event_created _ _ _ _ Hc).
  unfold try_except, mbind, M_bind. rewrite Hup.
  set (self1 := mkMonitor _ _ _ _).
  destruct (_calculate_ml_risk_score_returns event fresh self1)
    as (risk1 & records & Hcalc & _).
  assert (risk1 = risk) as ->.
  { pose proof (_calculate_ml_risk_score_model event fresh self1 self eq_refl) as Heq.
    rewrite Hcalc, Hrisk in Heq. simpl in Heq. congruence. }
  rewrite (analyze_security_exact clk event fresh self1 [] risk records Hnew eq_refl Hcalc).
  change (ml_model self1) with (ml_model self).
  destruct (model_truth (ml_model self)) as [[]|e]; cbv zeta; simpl;
    [by rewrite lookup_insert_eq | by rewrite lookup_insert_eq | exact Hnew].
Qed.

(** X19. A [session_start] forgets what the table held for its id: the
    entry it leaves (counters, heartbeat, status and risk score) is the
    same whatever the session table, the stored alerts and the log were
    before, for a given model, request and clock. *)
Theorem session_start_forgets_previous_entry
    (clk : Clock) (event_data : EventData.t) (self1 self2 : SessionMonitor)
    (uid sid : string) :
  EventData.user_id event_data = Some uid ->
  EventData.session_id event_data = Some sid ->
  EventData.event_type event_data = Some "session_start" ->
  ml_model self1 = ml_model self2 ->
  active_sessions (process_event clk event_data self1).2 !! sid
  = active_sessions (process_event clk event_data self2).2 !! sid.
Proof.
  intros Hu Hsid Hty Hm.
  set (event := SessionEvent.mk uid sid SESSION_START (utcnow_event clk)
                  (default ∅ (EventData.metadata event_data))
                  (EventData.device_fingerprint event_data)
                  (EventData.ip_address event_data) (EventData.user_agent event_data)).
  set (fresh := mkSession uid (utcnow_event clk) (utcnow_event clk) "active" 0 1 0 None).
  destruct (_calculate_ml_risk_score_returns event fresh self1)
    as (risk & records & Hcalc & _).
  assert ((_calculate_ml_risk_score event fresh self1).1 = Ok risk) as H1
    by by rewrite Hcalc.
  assert ((_calculate_ml_risk_score event fresh self2).1 = Ok risk) as H2
    by by rewrite <- (_calculate_ml_risk_score_model event fresh self1 self2 Hm).
  rewrite (session_start_entry clk event_data self1 uid sid Hu Hsid Hty risk H1).
  rewrite (session_start_entry clk event_data self2 uid sid Hu Hsid Hty risk H2).
  by rewrite Hm.
Qed.

Lemma session_start_forgets_previous_entry_witness :
  active_sessions
    (process_event (clock_at 200) (event_of "u" "s" "session_start" ∅)
       three_switches_monitor).2 !! "s"
  = active_sessions
      (process_event (clock_at 200) (event_of "u" "s" "session_start" ∅)
         (new_monitor None)).2 !! "s".
Proof.
  apply (session_start_forgets_previous_entry _ _ _ _ "u" "s"); reflexivity.
Defined.

(** ** What the analysis may change *)

(** X20. [analyze_security] never raises for an event whose session is
    unknown, never replaces the model, never adds or removes a session,
    and changes nothing in the session table but the risk score of the
    event's own session: every other field of that entry, and every
    other entry, is as the state update left it. *)
Theorem analysis_changes_only_the_risk_score
    (clk : Clock) (event : SessionEvent.t) (self : SessionMonitor) (sid : string) :
  ml_model (analyze_security clk event self).2 = ml_model self
  /\ match active_sessions self !! sid with
     | Some session =>
         exists risk,
           active_sessions (analyze_security clk event self).2 !! sid
           = Some (set_risk_score risk session)
           /\ (sid <> SessionEvent.session_id event -> risk = risk_score session)
     | None => active_sessions (analyze_security clk event self).2 !! sid = None
     end
  /\ (active_sessions self !! SessionEvent.session_id event = None ->
      analyze_security clk event self = (Ok tt, self)).
Proof.
  split; [|split; [|apply analyze_security_unknown]].
  - destruct (active_sessions self !! SessionEvent.session_id event) as [session|] eqn:Hs.
    + pose proof (analyze_security_known clk event session self Hs) as Ha.
      destruct (check_inactivity _ _ _) as [checked|e]; [|by rewrite Ha].
      destruct (model_truth (ml_model self)) as [truth|e]; [|by rewrite Ha].
      by destruct Ha as (risk & records & extra & -> & _).
    + by rewrite analyze_security_unknown.
  - destruct (active_sessions self !! SessionEvent.session_id event) as [own|] eqn:Hown.
    + pose proof (analyze_security_known clk event own self Hown) as Ha.
      assert (match active_sessions self !! sid with
              | Some session =>
                  exists risk,
                    active_sessions self !! sid = Some (set_risk_score risk session)
                    /\ (sid <> SessionEvent.session_id event -> risk = risk_score session)
              | None => active_sessions self !! sid = None
              end) as Hsame.
      { destruct (active_sessions self !! sid) as [session|]; [|done].
        exists (risk_score session). by rewrite set_risk_score_same. }
      destruct (check_inactivity _ _ _) as [checked|e]; [|by rewrite Ha].
      destruct (model_truth (ml_model self)) as [truth|e]; [|by rewrite Ha].
      clear Hsame. destruct Ha as (risk & records & extra & -> & _). simpl.
      destruct (decide (sid = SessionEvent.session_id event)) as [->|Hne].
      * rewrite Hown, lookup_insert_eq. eexists. split; [reflexivity | congruence].
      * rewrite lookup_insert_ne by done.
        destruct (active_sessions self !! sid) as [session|]; [|done].
        exists (risk_score session). by rewrite set_risk_score_same.
    + rewrite analyze_security_unknown by done. simpl.
      destruct (active_sessions self !! sid) as [session|]; [|done].
      exists (risk_score session). by rewrite set_risk_score_same.
Qed.

(** ** A model without a truth value *)

(** X21. When the truth test of the model raises, as it does for the
    forest that [_initialize_ml_model] builds and nothing fits, no
    accepted event of a known session, and no session start, has its
    alerts stored: the analysis is abandoned before [store_alert], the
    session table is left as the state update made it (so no rule and no
    floor changes a risk score), and [process_event] returns normally
    after logging one error, that of the truth test or, for an inactivity
    report whose duration is not a number, the [TypeError] that precedes
    it. *)
Theorem raising_truth_test_discards_the_alerts
    (clk : Clock) (event_data : EventData.t) (self : SessionMonitor)
    (event : SessionEvent.t) (e : PyExc) :
  (create_event clk event_data self).1 = Ok event ->
  is_Some (active_sessions self !! SessionEvent.session_id event)
  \/ SessionEvent.event_type event = SESSION_START ->
  model_truth (ml_model self) = Raise e ->
  (process_event clk event_data self).1 = Ok tt
  /\ alerts_of clk event_data self = []
  /\ security_alerts (process_event clk event_data self).2 = security_alerts self
  /\ active_sessions (process_event clk event_data self).2
     = active_sessions (update_session_state event self).2
  /\ exists e',
       error_log (process_event clk event_data self).2
       = error_log self ++ [ErrorProcessingEvent e']
       /\ (e' = e \/ e' = TypeError).
Proof.
  intros Hc Hknown Ht.
  destruct (update_session_state_spec event self) as (sessions' & Hup & _ & Hnew).
  assert (exists session, sessions' !! SessionEvent.session_id event = Some session)
    as [session Hs].
  { destruct Hknown as [[session0 Hs0] | Hstart].
    - rewrite Hs0 in Hnew. destruct (SessionEvent.event_type event); by eexists.
    - rewrite Hstart in Hnew. by eexists. }
  pose proof (process_event_known clk event_data self event sessions' session Hc Hup Hs)
    as Hp.
  assert (exists e',
            process_event clk event_data self =
            (Ok tt, mkMonitor (ml_model self) sessions' (security_alerts self)
                              (error_log self ++ [ErrorProcessingEvent e']))
            /\ (e' = e \/ e' = TypeError)) as (e' & Hpe & He').
  { unfold check_inactivity in Hp.
    destruct (decide (SessionEvent.event_type event = INACTIVITY)).
    - destruct (py_gt _ _) as [[]|raised] eqn:Hgt.
      + rewrite Ht in Hp. exists e. auto.
      + rewrite Ht in Hp. exists e. auto.
      + exists raised. split; [done|]. right. unfold py_gt in Hgt.
        destruct (metadata_get _ _); congruence.
    - rewrite Ht in Hp. exists e. auto. }
  split; [by rewrite Hpe|]. split; [apply alerts_of_app; by rewrite Hpe, app_nil_r|].
  rewrite Hpe, Hup. simpl. split; [done|]. split; [done|]. by exists e'.
Qed.

Lemma raising_truth_test_discards_the_alerts_witness :
  (process_event (clock_at 11)
     (event_of "u" "s" "inactivity" {["duration" := PyNum (31 # 1)]}) forest_monitor).1
  = Ok tt
  /\ alerts_of (clock_at 11)
       (event_of "u" "s" "inactivity" {["duration" := PyNum (31 # 1)]}) forest_monitor = []
  /\ security_alerts
       (process_event (clock_at 11)
          (event_of "u" "s" "inactivity" {["duration" := PyNum (31 # 1)]})
          forest_monitor).2
     = security_alerts forest_monitor
  /\ active_sessions
       (process_event (clock_at 11)
          (event_of "u" "s" "inactivity" {["duration" := PyNum (31 # 1)]})
          forest_monitor).2
     = active_sessions
         (update_session_state
            (SessionEvent.mk "u" "s" INACTIVITY 11000000 {["duration" := PyNum (31 # 1)]}
               None None None) forest_monitor).2
  /\ exists e',
       error_log
         (process_event (clock_at 11)
            (event_of "u" "s" "inactivity" {["duration" := PyNum (31 # 1)]})
            forest_monitor).2
       = error_log forest_monitor ++ [ErrorProcessingEvent e']
       /\ (e' = AttributeError \/ e' = TypeError).
Proof.
  apply (raising_truth_test_discards_the_alerts (clock_at 11)
           (event_of "u" "s" "inactivity" {["duration" := PyNum (31 # 1)]}) forest_monitor
           (SessionEvent.mk "u" "s" INACTIVITY 11000000 {["duration" := PyNum (31 # 1)]}
              None None None) AttributeError).
  - vm_compute. reflexivity.
  - left. vm_compute. eexists. reflexivity.
  - vm_compute. reflexivity.
Defined.
